(** * Maple Street appointment scheduler: the booking view

    A shallow embedding of [frontend/src/App.jsx]: the two date helpers
    [toLocalISO] and [displayLocal], the handlers [load], [book] and
    [cancelAppointment] of the [App] component, its Reset button and mount
    effect, and what its list computes for each appointment, together
    with the parts of the JavaScript platform they call
    ([String.prototype.replace] and [slice], [Date.prototype.toISOString]
    and [getTimezoneOffset], [Number], [JSON.stringify], [fetch],
    [confirm]).

    Conventions of the model:
    - a JavaScript string is a [string]: a sequence of code units, here
      restricted to the code units below 256;
    - a time value is a [Z] number of milliseconds since the epoch, a
      [Date] holds one or [NaN] (an invalid date);
    - a handler is a computation in the monad [M]: it reads and updates
      the [World] (React state plus the logs of what the user and the
      network saw) and returns or throws. *)

From Stdlib Require Import ZArith String Ascii List Bool Lia.
From Stdlib Require Import Floats.SpecFloat.
Import ListNotations.

Set Warnings "-register-all".

Local Open Scope string_scope.
Local Open Scope Z_scope.

(* ===================================================================== *)
(** * Strings *)
(* ===================================================================== *)

Module JSString.

Definition len (s : string) : Z := Z.of_nat (String.length s).

(** [!s] is false exactly for the empty string. *)
Definition truthy (s : string) : bool :=
  match s with
  | EmptyString => false
  | String _ _ => true
  end.

Fixpoint drop (n : nat) (s : string) : string :=
  match n, s with
  | O, _ => s
  | S n', String _ s' => drop n' s'
  | S _, EmptyString => EmptyString
  end.

(** [s.replace(pat, rep)] for a string pattern and a replacement that
    holds no [$]: the first occurrence of [pat] is replaced, the rest of
    [s] is kept. *)
Fixpoint replace (pat rep s : string) : string :=
  if prefix pat s then rep ++ drop (String.length pat) s
  else match s with
       | EmptyString => EmptyString
       | String c s' => String c (replace pat rep s')
       end.

(** The clamping of one index of [slice]: a negative index counts from
    the end of the string. *)
Definition clamp (l i : Z) : Z :=
  if i <? 0 then Z.max (l + i) 0 else Z.min i l.

(** [s.slice(from, to)]. *)
Definition slice (s : string) (from to : Z) : string :=
  let a := clamp (len s) from in
  let b := clamp (len s) to in
  if b <=? a then EmptyString
  else substring (Z.to_nat a) (Z.to_nat (b - a)) s.

End JSString.

(* ===================================================================== *)
(** * displayLocal *)
(* ===================================================================== *)

(** [displayLocal(dtStr)]; [None] is a [null] or missing field.
<<
  function displayLocal(dtStr) {
    if (!dtStr) return 'Invalid Date'
    return dtStr.replace('T', ' ').slice(0, 16)
  }
>> *)
Definition displayLocal (dtStr : option string) : string :=
  match dtStr with
  | None => "Invalid Date"
  | Some s =>
      if negb (JSString.truthy s) then "Invalid Date"
      else JSString.slice (JSString.replace "T" " " s) 0 16
  end.

(* ===================================================================== *)
(** * Numbers: the grammar of [Number(string)] *)
(* ===================================================================== *)

(** A Number value is an IEEE 754 binary64 value, [S754_nan] for [NaN]. *)
Definition JSNumber : Set := spec_float.

Definition NaN : JSNumber := S754_nan.

Module StringToNumber.

Definition code (c : ascii) : nat := nat_of_ascii c.

Definition in_range (lo hi : nat) (c : ascii) : bool :=
  (Nat.leb lo (code c) && Nat.leb (code c) hi)%bool.

Definition is_digit : ascii -> bool := in_range 48 57.
Definition is_octal_digit : ascii -> bool := in_range 48 55.
Definition is_binary_digit : ascii -> bool := in_range 48 49.
Definition is_hex_digit (c : ascii) : bool :=
  (is_digit c || in_range 65 70 c || in_range 97 102 c)%bool.

(** StrWhiteSpaceChar, among the code units below 256: TAB, LF, VT, FF,
    CR, SP and NBSP. *)
Definition is_whitespace (c : ascii) : bool :=
  (in_range 9 13 c || Nat.eqb (code c) 32 || Nat.eqb (code c) 160)%bool.

Fixpoint trim_start (s : string) : string :=
  match s with
  | EmptyString => EmptyString
  | String c s' => if is_whitespace c then trim_start s' else s
  end.

Fixpoint trim_end (s : string) : string :=
  match s with
  | EmptyString => EmptyString
  | String c s' =>
      match trim_end s' with
      | EmptyString => if is_whitespace c then EmptyString
                       else String c EmptyString
      | r => String c r
      end
  end.

Definition trim (s : string) : string := trim_end (trim_start s).

(** The longest prefix of [s] made of [p] characters, and the rest. *)
Fixpoint span (p : ascii -> bool) (s : string) : string * string :=
  match s with
  | EmptyString => (EmptyString, EmptyString)
  | String c s' =>
      if p c then let (a, b) := span p s' in (String c a, b)
      else (EmptyString, s)
  end.

Fixpoint all (p : ascii -> bool) (s : string) : bool :=
  match s with
  | EmptyString => true
  | String c s' => (p c && all p s')%bool
  end.

(** One or more characters, all of them in [p]. *)
Definition some_all (p : ascii -> bool) (s : string) : bool :=
  (JSString.truthy s && all p s)%bool.

Definition strip_sign (s : string) : string :=
  match s with
  | String "+" r => r
  | String "-" r => r
  | _ => s
  end.

(** ExponentPart, optional: [e] or [E], an optional sign, digits. *)
Definition is_exponent_opt (s : string) : bool :=
  match s with
  | EmptyString => true
  | String "e" r | String "E" r => some_all is_digit (strip_sign r)
  | _ => false
  end.

(** StrUnsignedDecimalLiteral:
    [Infinity], [digits . digits? exp?], [. digits exp?], [digits exp?]. *)
Definition is_StrUnsignedDecimalLiteral (s : string) : bool :=
  if String.eqb s "Infinity" then true
  else
    let (int, r1) := span is_digit s in
    let (frac, r2) :=
      match r1 with
      | String "." r => span is_digit r
      | _ => (EmptyString, r1)
      end in
    ((JSString.truthy int || JSString.truthy frac) && is_exponent_opt r2)%bool.

(** NonDecimalIntegerLiteral: [0x], [0o] or [0b] and digits; no sign. *)
Definition is_NonDecimalIntegerLiteral (s : string) : bool :=
  match s with
  | String "0" (String "x" r) | String "0" (String "X" r) =>
      some_all is_hex_digit r
  | String "0" (String "o" r) | String "0" (String "O" r) =>
      some_all is_octal_digit r
  | String "0" (String "b" r) | String "0" (String "B" r) =>
      some_all is_binary_digit r
  | _ => false
  end.

Definition is_StrNumericLiteral (s : string) : bool :=
  (is_NonDecimalIntegerLiteral s
   || is_StrUnsignedDecimalLiteral (strip_sign s))%bool.

End StringToNumber.

(* ===================================================================== *)
(** * JSON values and [JSON.stringify] *)
(* ===================================================================== *)

Inductive JSON : Type :=
| JNull
| JBool (b : bool)
| JNum (x : JSNumber)
| JStr (s : string)
| JArr (items : list JSON)
| JObj (fields : list (string * JSON)).

Module JSONText.

Definition chr (n : nat) : string := String (ascii_of_nat n) EmptyString.

Definition quote : string := chr 34.
Definition backslash : string := chr 92.

Definition hex_digit (n : nat) : string :=
  chr (if Nat.ltb n 10 then 48 + n else 87 + n)%nat.

(** One code unit inside a JSON string literal. *)
Definition escape (c : ascii) : string :=
  let n := nat_of_ascii c in
  if Nat.eqb n 8 then backslash ++ "b"
  else if Nat.eqb n 9 then backslash ++ "t"
  else if Nat.eqb n 10 then backslash ++ "n"
  else if Nat.eqb n 12 then backslash ++ "f"
  else if Nat.eqb n 13 then backslash ++ "r"
  else if Nat.eqb n 34 then backslash ++ quote
  else if Nat.eqb n 92 then backslash ++ backslash
  else if Nat.ltb n 32 then
    backslash ++ "u00" ++ hex_digit (Nat.div n 16) ++ hex_digit (Nat.modulo n 16)
  else String c EmptyString.

Fixpoint escape_all (s : string) : string :=
  match s with
  | EmptyString => EmptyString
  | String c s' => escape c ++ escape_all s'
  end.

(** QuoteJSONString. *)
Definition quoted (s : string) : string := quote ++ escape_all s ++ quote.

Definition is_finite (x : JSNumber) : bool :=
  match x with
  | S754_zero _ | S754_finite _ _ _ => true
  | S754_infinity _ | S754_nan => false
  end.

Section Stringify.

(** [Number::toString] on the finite values, a function of the
    engine. *)
Variable Number_toString : JSNumber -> string.

(** A Number in JSON text: [NaN] and the infinities become [null]. *)
Definition number (x : JSNumber) : string :=
  if is_finite x then Number_toString x else "null".

Fixpoint stringify (v : JSON) : string :=
  match v with
  | JNull => "null"
  | JBool true => "true"
  | JBool false => "false"
  | JNum x => number x
  | JStr s => quoted s
  | JArr items =>
      "[" ++
      (fix elements (l : list JSON) : string :=
         match l with
         | [] => EmptyString
         | x :: r =>
             match r with
             | [] => stringify x
             | _ :: _ => stringify x ++ "," ++ elements r
             end
         end) items ++ "]"
  | JObj fields =>
      "{" ++
      (fix members (l : list (string * JSON)) : string :=
         match l with
         | [] => EmptyString
         | (k, x) :: r =>
             match r with
             | [] => quoted k ++ ":" ++ stringify x
             | _ :: _ => quoted k ++ ":" ++ stringify x ++ "," ++ members r
             end
         end) fields ++ "}"
  end.

End Stringify.

End JSONText.

(* ===================================================================== *)
(** * Dates: time values and [toISOString] *)
(* ===================================================================== *)

(** The result of a numeric expression over time values: an integer
    number of milliseconds, or [None] for [NaN].  Every integer the
    handlers compute lies below 2^53, where binary64 arithmetic is
    exact. *)
Definition TimeNumber : Set := option Z.

(** A [Date] object: its time value, [None] for an invalid date. *)
Record Date : Set := mkDate { time_value : TimeNumber }.

Module JSDate.

Definition msPerDay : Z := 86400000.
Definition msPerHour : Z := 3600000.
Definition msPerMinute : Z := 60000.
Definition msPerSecond : Z := 1000.

(** The largest magnitude of a time value: 8.64e15 ms. *)
Definition maxTime : Z := 8640000000000000.

Definition Day (t : Z) : Z := t / msPerDay.
Definition TimeWithinDay (t : Z) : Z := t mod msPerDay.

Definition DayFromYear (y : Z) : Z :=
  365 * (y - 1970) + (y - 1969) / 4 - (y - 1901) / 100 + (y - 1601) / 400.

Definition TimeFromYear (y : Z) : Z := msPerDay * DayFromYear y.

(** The year that holds day number [d]: the largest [y] with
    [DayFromYear y <= d] (lemma [YearFromDay_spec]), found from the mean
    length of a year. *)
Definition YearFromDay (d : Z) : Z :=
  let y := 1970 + (400 * d) / 146097 in
  if DayFromYear (y + 1) <=? d then y + 1
  else if DayFromYear y <=? d then y
  else y - 1.

Definition YearFromTime (t : Z) : Z := YearFromDay (Day t).

Definition DaysInYear (y : Z) : Z :=
  if negb (y mod 4 =? 0) then 365
  else if negb (y mod 100 =? 0) then 366
  else if negb (y mod 400 =? 0) then 365
  else 366.

Definition InLeapYear (t : Z) : Z :=
  if DaysInYear (YearFromTime t) =? 366 then 1 else 0.

Definition DayWithinYear (t : Z) : Z := Day t - DayFromYear (YearFromTime t).

(** Month number, 0 for January. *)
Definition MonthFromTime (t : Z) : Z :=
  let d := DayWithinYear t in
  let l := InLeapYear t in
  if d <? 31 then 0
  else if d <? 59 + l then 1
  else if d <? 90 + l then 2
  else if d <? 120 + l then 3
  else if d <? 151 + l then 4
  else if d <? 181 + l then 5
  else if d <? 212 + l then 6
  else if d <? 243 + l then 7
  else if d <? 273 + l then 8
  else if d <? 304 + l then 9
  else if d <? 334 + l then 10
  else 11.

(** Day of the month, from 1. *)
Definition DateFromTime (t : Z) : Z :=
  let d := DayWithinYear t in
  let l := InLeapYear t in
  match MonthFromTime t with
  | 0 => d + 1
  | 1 => d - 30
  | 2 => d - 58 - l
  | 3 => d - 89 - l
  | 4 => d - 119 - l
  | 5 => d - 150 - l
  | 6 => d - 180 - l
  | 7 => d - 211 - l
  | 8 => d - 242 - l
  | 9 => d - 272 - l
  | 10 => d - 303 - l
  | _ => d - 333 - l
  end.

Definition HourFromTime (t : Z) : Z := (t / msPerHour) mod 24.
Definition MinFromTime (t : Z) : Z := (t / msPerMinute) mod 60.
Definition SecFromTime (t : Z) : Z := (t / msPerSecond) mod 60.
Definition msFromTime (t : Z) : Z := t mod msPerSecond.

(** TimeClip: what [new Date(v)] keeps of the number [v]. *)
Definition TimeClip (v : TimeNumber) : TimeNumber :=
  match v with
  | None => None
  | Some t => if Z.abs t <=? maxTime then Some t else None
  end.

(** [new Date(v)] for a number [v]. *)
Definition of_number (v : TimeNumber) : Date := mkDate (TimeClip v).

(** [a - b] and [a * b] on numbers, [NaN] absorbing. *)
Definition sub (a b : TimeNumber) : TimeNumber :=
  match a, b with
  | Some x, Some y => Some (x - y)
  | _, _ => None
  end.

Definition mul (a b : TimeNumber) : TimeNumber :=
  match a, b with
  | Some x, Some y => Some (x * y)
  | _, _ => None
  end.

(** [a < b] and [a <= b] on two dates: the comparison of their time
    values, false as soon as one of them is [NaN]. *)
Definition lt (a b : Date) : bool :=
  match time_value a, time_value b with
  | Some x, Some y => x <? y
  | _, _ => false
  end.

Definition le (a b : Date) : bool :=
  match time_value a, time_value b with
  | Some x, Some y => x <=? y
  | _, _ => false
  end.

(** The decimal digit of [n mod 10]. *)
Definition digit (n : Z) : ascii := ascii_of_nat (48 + Z.to_nat (n mod 10)).

(** [n] written with exactly [w] decimal digits. *)
Fixpoint digits (w : nat) (n : Z) : string :=
  match w with
  | O => EmptyString
  | S w' => digits w' (n / 10) ++ String (digit n) EmptyString
  end.

(** The year of the ISO format: four digits from 0 to 9999, otherwise a
    sign and six digits. *)
Definition iso_year (y : Z) : string :=
  if (0 <=? y) && (y <=? 9999) then digits 4 y
  else (if y <? 0 then "-" else "+") ++ digits 6 (Z.abs y).

(** The text of [toISOString] for a finite time value:
    [YYYY-MM-DDTHH:mm:ss.sssZ]. *)
Definition iso_string (t : Z) : string :=
  iso_year (YearFromTime t) ++ "-" ++ digits 2 (MonthFromTime t + 1) ++ "-"
  ++ digits 2 (DateFromTime t) ++ "T" ++ digits 2 (HourFromTime t) ++ ":"
  ++ digits 2 (MinFromTime t) ++ ":" ++ digits 2 (SecFromTime t) ++ "."
  ++ digits 3 (msFromTime t) ++ "Z".

End JSDate.

(** What a JavaScript exception carries, as far as the handlers look. *)
Inductive Exn : Set :=
| RangeError (message : string)
| SyntaxError (message : string)
| TypeError (message : string).

(** The outcome of an expression that may throw. *)
Inductive Completion (A : Type) : Type :=
| Normal (a : A)
| Throw (e : Exn).
Arguments Normal {A} a.
Arguments Throw {A} e.

(** [d.toISOString()]: a [RangeError] on an invalid date. *)
Definition toISOString (d : Date) : Completion string :=
  match time_value d with
  | None => Throw (RangeError "Invalid time value")
  | Some t => Normal (JSDate.iso_string t)
  end.

(* ===================================================================== *)
(** * The host: clock, time zone, network and engine *)
(* ===================================================================== *)

Inductive Method : Set := GET | POST | DELETE.

Record Request : Set := mkRequest {
  method : Method;
  url : string;
  headers : list (string * string);
  body : option string
}.

(** What comes back from one [fetch] and the reading of its body. *)
Inductive FetchOutcome : Set :=
| Failed (e : Exn)
    (** the promise of [fetch], or of [res.text()] / [res.json()] reading
        the body, rejects: no connection, a body cut short *)
| Responded (status : Z) (text : string)
    (** a response with this status code and this body text *).

Record Response : Set := mkResponse {
  status : Z;
  text : string
}.

(** [res.ok]: a status from 200 to 299. *)
Definition ok (res : Response) : bool :=
  (200 <=? status res) && (status res <=? 299).

(** Everything the component takes from its environment.  The time zone
    is given by [getTimezoneOffset], in whole minutes, as a function of
    the time value. *)
Record Host : Type := mkHost {
  timezoneOffset : Z -> Z;
  clock : Z;
  network : Request -> FetchOutcome;
  StringNumericValue : string -> JSNumber;
  Number_toString : JSNumber -> string;
  JSON_parse : string -> option JSON
}.

Definition API : string := "http://localhost:8080/api/appointments".

Inductive Toast : Set :=
| ToastError (message : string)
| ToastSuccess (message : string).

(** The React state of [App], and what the component has shown, sent and
    logged so far, oldest first. *)
Record World : Type := mkWorld {
  appointments : JSON;
  customer : string;
  vehicle : string;
  mechanic : string;
  start : option Date;
  end_ : option Date;
  toasts : list Toast;
  requests : list Request;
  console : list Exn
}.

(** The state of a freshly mounted component. *)
Definition initial : World :=
  mkWorld (JArr []) EmptyString EmptyString EmptyString None None [] [] [].

(** The five fields of the form. *)
Definition draft (w : World) :=
  (customer w, vehicle w, mechanic w, start w, end_ w).

Definition with_appointments (v : JSON) (w : World) : World :=
  mkWorld v (customer w) (vehicle w) (mechanic w) (start w) (end_ w)
          (toasts w) (requests w) (console w).

Definition with_customer (v : string) (w : World) : World :=
  mkWorld (appointments w) v (vehicle w) (mechanic w) (start w) (end_ w)
          (toasts w) (requests w) (console w).

Definition with_vehicle (v : string) (w : World) : World :=
  mkWorld (appointments w) (customer w) v (mechanic w) (start w) (end_ w)
          (toasts w) (requests w) (console w).

Definition with_mechanic (v : string) (w : World) : World :=
  mkWorld (appointments w) (customer w) (vehicle w) v (start w) (end_ w)
          (toasts w) (requests w) (console w).

Definition with_start (v : option Date) (w : World) : World :=
  mkWorld (appointments w) (customer w) (vehicle w) (mechanic w) v (end_ w)
          (toasts w) (requests w) (console w).

Definition with_end (v : option Date) (w : World) : World :=
  mkWorld (appointments w) (customer w) (vehicle w) (mechanic w) (start w) v
          (toasts w) (requests w) (console w).

Definition with_toast (t : Toast) (w : World) : World :=
  mkWorld (appointments w) (customer w) (vehicle w) (mechanic w) (start w)
          (end_ w) (toasts w ++ [t]) (requests w) (console w).

Definition with_request (r : Request) (w : World) : World :=
  mkWorld (appointments w) (customer w) (vehicle w) (mechanic w) (start w)
          (end_ w) (toasts w) (requests w ++ [r]) (console w).

Definition with_console (e : Exn) (w : World) : World :=
  mkWorld (appointments w) (customer w) (vehicle w) (mechanic w) (start w)
          (end_ w) (toasts w) (requests w) (console w ++ [e]).

(* ===================================================================== *)
(** * The monad of handlers *)
(* ===================================================================== *)

(** A handler runs on a world and returns or throws; the world it leaves
    is kept in both cases. *)
Definition M (A : Type) : Type := World -> Completion A * World.

Definition ret {A} (a : A) : M A := fun w => (Normal a, w).

Definition throw {A} (e : Exn) : M A := fun w => (Throw e, w).

Definition bind {A B} (m : M A) (k : A -> M B) : M B :=
  fun w =>
    match m w with
    | (Normal a, w') => k a w'
    | (Throw e, w') => (Throw e, w')
    end.

(** [try { m } catch (e) { handler }]. *)
Definition try_catch {A} (m : M A) (handler : Exn -> M A) : M A :=
  fun w =>
    match m w with
    | (Normal a, w') => (Normal a, w')
    | (Throw e, w') => handler e w'
    end.

(** A call of an async function whose promise is dropped: its effects
    happen, its outcome is not looked at. *)
Definition detached {A} (m : M A) : M unit :=
  fun w => (Normal tt, snd (m w)).

Definition lift {A} (c : Completion A) : M A := fun w => (c, w).

Definition modify (f : World -> World) : M unit := fun w => (Normal tt, f w).

Declare Scope handler_scope.
Delimit Scope handler_scope with handler.
Notation "x <- m ;; k" := (bind m (fun x => k))
  (at level 61, m at next level, right associativity) : handler_scope.
Notation "m ;; k" := (bind m (fun _ => k))
  (at level 61, right associativity) : handler_scope.
Local Open Scope handler_scope.

(** The world after a handler, and how the handler completed. *)
Definition exec {A} (m : M A) (w : World) : World := snd (m w).
Definition completion {A} (m : M A) (w : World) : Completion A := fst (m w).

Definition toast_error (msg : string) : M unit := modify (with_toast (ToastError msg)).
Definition toast_success (msg : string) : M unit := modify (with_toast (ToastSuccess msg)).
Definition console_error (e : Exn) : M unit := modify (with_console e).

Definition setAppointments (v : JSON) : M unit := modify (with_appointments v).
Definition setCustomer (v : string) : M unit := modify (with_customer v).
Definition setVehicle (v : string) : M unit := modify (with_vehicle v).
Definition setMechanic (v : string) : M unit := modify (with_mechanic v).
Definition setStart (v : option Date) : M unit := modify (with_start v).
Definition setEnd (v : option Date) : M unit := modify (with_end v).

(** The numeric value of a form date in a comparison: [null] counts as 0. *)
Definition date_number (d : option Date) : Date :=
  match d with
  | None => mkDate (Some 0)
  | Some d => d
  end.

(** [!d] on a form date: only [null] is falsy, a [Date] object never. *)
Definition is_null (d : option Date) : bool :=
  match d with
  | None => true
  | Some _ => false
  end.

Section Component.

Variable host : Host.

(** [new Date()]. *)
Definition new_Date : M Date := ret (mkDate (Some (clock host))).

(** [d.getTimezoneOffset()]: [NaN] on an invalid date. *)
Definition getTimezoneOffset (d : Date) : TimeNumber :=
  match time_value d with
  | None => None
  | Some t => Some (timezoneOffset host t)
  end.

(** [Number(s)] on a string. *)
Definition Number (s : string) : JSNumber :=
  let t := StringToNumber.trim s in
  if negb (JSString.truthy t) then S754_zero false
  else if StringToNumber.is_StrNumericLiteral t then StringNumericValue host t
  else NaN.

Definition JSON_stringify (v : JSON) : string :=
  JSONText.stringify (Number_toString host) v.

(** [await fetch(url, init)]: the request goes out; the await throws
    when the outcome is [Failed], which also stands for a body that cannot
    be read afterwards. *)
Definition fetch (req : Request) : M Response :=
  fun w =>
    match network host req with
    | Failed e => (Throw e, with_request req w)
    | Responded st txt => (Normal (mkResponse st txt), with_request req w)
    end.

(** [await res.text()]. *)
Definition res_text (res : Response) : M string := ret (text res).

(** [await res.json()]: the body text through [JSON.parse]. *)
Definition res_json (res : Response) : M JSON :=
  match JSON_parse host (text res) with
  | Some v => ret v
  | None => throw (SyntaxError "Unexpected token in JSON")
  end.

(**
<<
function toLocalISO(dt) {
  if (!dt) return ''
  const tzOffset = dt.getTimezoneOffset() * 60000
  return new Date(dt - tzOffset).toISOString().slice(0, 19)
}
>> *)
Definition toLocalISO (dt : option Date) : Completion string :=
  match dt with
  | None => Normal EmptyString
  | Some d =>
      let tzOffset := JSDate.mul (getTimezoneOffset d) (Some 60000) in
      match toISOString (JSDate.of_number (JSDate.sub (time_value d) tzOffset)) with
      | Normal s => Normal (JSString.slice s 0 19)
      | Throw e => Throw e
      end
  end.

(**
<<
async function load() {
  try {
    const res = await fetch(API)
    const data = await res.json()
    setAppointments(data)
  } catch (e) {
    console.error(e)
  }
}
>> *)
Definition load : M unit :=
  try_catch
    (res <- fetch (mkRequest GET API [] None) ;;
     data <- res_json res ;;
     setAppointments data)
    (fun e => console_error e).

(** The object built by [book] for the request body. *)
Definition payload (customerName vehicleReg : string) (mechanicId : JSNumber)
    (startTime endTime : string) : JSON :=
  JObj [ ("customerName", JStr customerName);
         ("vehicleReg", JStr vehicleReg);
         ("mechanicId", JNum mechanicId);
         ("startTime", JStr startTime);
         ("endTime", JStr endTime) ].

Definition post (p : JSON) : Request :=
  mkRequest POST API [("Content-Type", "application/json")]
            (Some (JSON_stringify p)).

(** [book()], on the values of the form its closure holds: those of the
    world it starts in.  The call of [load()] at the end of the success
    branch is not awaited.
<<
async function book() {
  if (!customer || !vehicle || !mechanic || !start || !end) {
    toast.error("Please fill all fields")
    return
  }
  if (start < new Date()) {
    toast.error("Cannot schedule in the past")
    return
  }
  if (end <= start) {
    toast.error("End time must be after start time")
    return
  }
  const payload = {
    customerName: customer,
    vehicleReg: vehicle,
    mechanicId: Number(mechanic),
    startTime: toLocalISO(start),
    endTime: toLocalISO(end)
  }
  try {
    const res = await fetch(API, {
      method: 'POST',
      headers: { 'Content-Type': 'application/json' },
      body: JSON.stringify(payload)
    })
    const txt = await res.text()
    if (res.ok) {
      toast.success("Appointment booked")
      setCustomer('')
      setVehicle('')
      setMechanic('')
      setStart(null)
      setEnd(null)
      load()
    } else {
      toast.error(txt || "Error booking appointment")
    }
  } catch (e) {
    console.error(e)
    toast.error("Error booking appointment")
  }
}
>> *)
Definition book : M unit :=
  fun w0 =>
    (if negb (JSString.truthy (customer w0)) || negb (JSString.truthy (vehicle w0))
        || negb (JSString.truthy (mechanic w0)) || is_null (start w0)
        || is_null (end_ w0)
     then toast_error "Please fill all fields"
     else
       now <- new_Date ;;
       if JSDate.lt (date_number (start w0)) now
       then toast_error "Cannot schedule in the past"
       else if JSDate.le (date_number (end_ w0)) (date_number (start w0))
       then toast_error "End time must be after start time"
       else
         startTime <- lift (toLocalISO (start w0)) ;;
         endTime <- lift (toLocalISO (end_ w0)) ;;
         let p := payload (customer w0) (vehicle w0) (Number (mechanic w0))
                          startTime endTime in
         try_catch
           (res <- fetch (post p) ;;
            txt <- res_text res ;;
            if ok res then
              toast_success "Appointment booked" ;;
              setCustomer EmptyString ;;
              setVehicle EmptyString ;;
              setMechanic EmptyString ;;
              setStart None ;;
              setEnd None ;;
              detached load
            else
              toast_error (if JSString.truthy txt then txt
                           else "Error booking appointment"))
           (fun e =>
              console_error e ;;
              toast_error "Error booking appointment")) w0.

End Component.

(* ===================================================================== *)
(** * Wall-clock fields and the naive local format *)
(* ===================================================================== *)

Section WallClock.

Variable host : Host.

(** LocalTime(t): by the definition of [getTimezoneOffset], the offset
    in minutes is [(t - LocalTime t) / msPerMinute]. *)
Definition LocalTime (t : Z) : Z := t - JSDate.msPerMinute * timezoneOffset host t.

(** The local-time getters of a valid date with time value [t]. *)
Definition getFullYear (t : Z) : Z := JSDate.YearFromTime (LocalTime t).
Definition getMonth (t : Z) : Z := JSDate.MonthFromTime (LocalTime t).
Definition getDate (t : Z) : Z := JSDate.DateFromTime (LocalTime t).
Definition getHours (t : Z) : Z := JSDate.HourFromTime (LocalTime t).
Definition getMinutes (t : Z) : Z := JSDate.MinFromTime (LocalTime t).
Definition getSeconds (t : Z) : Z := JSDate.SecFromTime (LocalTime t).

(** [YYYY-MM-DDTHH:MM:SS] from six calendar fields, the month counted
    from 1. *)
Definition naive_local (y mo d h mi s : Z) : string :=
  JSDate.digits 4 y ++ "-" ++ JSDate.digits 2 mo ++ "-" ++ JSDate.digits 2 d
  ++ "T" ++ JSDate.digits 2 h ++ ":" ++ JSDate.digits 2 mi ++ ":"
  ++ JSDate.digits 2 s.

(** The wall-clock reading, in the host's zone, of the time value [t]. *)
Definition wall_clock (t : Z) : string :=
  naive_local (getFullYear t) (getMonth t + 1) (getDate t)
              (getHours t) (getMinutes t) (getSeconds t).

(** The three validations of [book], in the order of the source: no
    field missing, start not before now, end after start. *)
Definition passes_validation (w : World) : bool :=
  negb (negb (JSString.truthy (customer w)) || negb (JSString.truthy (vehicle w))
        || negb (JSString.truthy (mechanic w)) || is_null (start w)
        || is_null (end_ w))
  && negb (JSDate.lt (date_number (start w)) (mkDate (Some (clock host))))
  && negb (JSDate.le (date_number (end_ w)) (date_number (start w))).

End WallClock.

(** Does [s] have the shape [dddd-dd-ddTdd:dd:dd]? *)
Definition naive_local_form (s : string) : bool :=
  match list_ascii_of_string s with
  | [y1; y2; y3; y4; s1; m1; m2; s2; d1; d2; s3; h1; h2; s4; i1; i2; s5; c1; c2] =>
      forallb StringToNumber.is_digit
              [y1; y2; y3; y4; m1; m2; d1; d2; h1; h2; i1; i2; c1; c2]
      && Ascii.eqb s1 "-" && Ascii.eqb s2 "-" && Ascii.eqb s3 "T"
      && Ascii.eqb s4 ":" && Ascii.eqb s5 ":"
  | _ => false
  end.

(** The code unit at index [i] of [s] once its first [T] has become a
    space; the first [T] is found by the library's [index]. *)
Definition first_T_spaced (s : string) (i : nat) : option ascii :=
  match index 0 "T" s with
  | Some k => if Nat.eqb k i then Some " "%char else get i s
  | None => get i s
  end.

(** The grammar StringNumericLiteral: does [Number(s)] differ from [NaN]? *)
Definition parses_as_number (s : string) : bool :=
  let t := StringToNumber.trim s in
  negb (JSString.truthy t) || StringToNumber.is_StrNumericLiteral t.

Definition is_POST (r : Request) : bool :=
  match method r with
  | POST => true
  | _ => false
  end.

(** The request of [load]. *)
Definition get_appointments : Request := mkRequest GET API [] None.

(** The world [load] leaves, by what the network and the parser answer. *)
Definition loaded (h : Host) (w : World) : World :=
  match network h get_appointments with
  | Failed e => with_console e (with_request get_appointments w)
  | Responded _ txt =>
      match JSON_parse h txt with
      | Some v => with_appointments v (with_request get_appointments w)
      | None => with_console (SyntaxError "Unexpected token in JSON")
                             (with_request get_appointments w)
      end
  end.

(** The form after a successful booking. *)
Definition cleared (w : World) : World :=
  with_end None (with_start None (with_mechanic EmptyString
    (with_vehicle EmptyString (with_customer EmptyString w)))).

(** The world [book] leaves once the payload [p] is built, by what the
    network answers to the POST. *)
Definition submitted (h : Host) (w : World) (p : JSON) : World :=
  match network h (post h p) with
  | Failed e =>
      with_toast (ToastError "Error booking appointment")
                 (with_console e (with_request (post h p) w))
  | Responded st txt =>
      if ok (mkResponse st txt) then
        loaded h (cleared (with_toast (ToastSuccess "Appointment booked")
                                      (with_request (post h p) w)))
      else
        with_toast (ToastError (if JSString.truthy txt then txt
                                else "Error booking appointment"))
                   (with_request (post h p) w)
  end.

(* ===================================================================== *)
(** * A host to run the handlers on *)
(* ===================================================================== *)

Module Demo.

(** An engine for the decimal integers below 2^53: the mechanic ids of
    the examples. *)
Fixpoint decimal_value (acc : Z) (s : string) : Z :=
  match s with
  | EmptyString => acc
  | String c s' => decimal_value (10 * acc + (Z.of_nat (nat_of_ascii c) - 48)) s'
  end.

Definition value (s : string) : JSNumber :=
  match decimal_value 0 s with
  | Zpos p => S754_finite false p 0
  | _ => S754_zero false
  end.

Fixpoint decimal_text (fuel : nat) (n : Z) : string :=
  match fuel with
  | O => EmptyString
  | S fuel' =>
      (if n <? 10 then EmptyString else decimal_text fuel' (n / 10))
      ++ String (JSDate.digit n) EmptyString
  end.

Definition to_text (x : JSNumber) : string :=
  match x with
  | S754_finite false p 0 => decimal_text (S (Z.to_nat (Z.log2 (Zpos p)))) (Zpos p)
  | _ => "0"
  end.

(** A parser for the JSON texts the examples receive. *)
Definition parse (s : string) : option JSON :=
  if String.eqb s "[]" then Some (JArr [])
  else if String.eqb s "{}" then Some (JObj [])
  else if String.eqb s "null" then Some JNull
  else None.

(** A host whose [getTimezoneOffset] is the constant [offset] (minutes,
    positive west of Greenwich) and whose clock reads [now]. *)
Definition host (offset now : Z) (net : Request -> FetchOutcome) : Host :=
  mkHost (fun _ => offset) now net value to_text parse.

(** A server that answers the POST with [created] and the GET with
    [listed]. *)
Definition server (created listed : FetchOutcome) (r : Request) : FetchOutcome :=
  match method r with
  | POST => created
  | _ => listed
  end.

Definition accepts : Request -> FetchOutcome :=
  server (Responded 201 "{}") (Responded 200 "[]").

(** 2024-01-01T00:00:00Z. *)
Definition new_year_2024 : Z := 1704067200000.

(** 10000-01-01T00:00:00Z. *)
Definition new_year_10000 : Z := 253402300800000.

(** A form filled for mechanic [m] from [s] to [e]. *)
Definition form (m : string) (s e : option Date) : World :=
  mkWorld (JArr []) "Ann Lee" "KA01AB1234" m s e [] [] [].

Definition at_ (t : Z) : option Date := Some (mkDate (Some t)).

(** A component that shows one appointment and an empty form. *)
Definition listed : World :=
  mkWorld (JArr [JObj [("id", JNum (S754_finite false 1 0));
                       ("customerName", JStr "Ann Lee")]])
          EmptyString EmptyString EmptyString None None [] [] [].

End Demo.

(* ===================================================================== *)
(** * The rest of the component: cancel, reset, mount and the list *)
(* ===================================================================== *)

(** The decimal digits of [n >= 0], most significant first; [fuel] bounds
    their number. *)
Fixpoint decimal (fuel : nat) (n : Z) : string :=
  match fuel with
  | O => EmptyString
  | S fuel' =>
      (if n <? 10 then EmptyString else decimal fuel' (n / 10))
      ++ String (JSDate.digit n) EmptyString
  end.

(** [Number::toString] on an integer below 10^21 in magnitude: the way a
    status code is written when it is appended to a string. *)
Definition integer_toString (n : Z) : string :=
  if n <? 0 then "-" ++ decimal (S (Z.to_nat (Z.log2 (- n)))) (- n)
  else decimal (S (Z.to_nat (Z.log2 n))) n.

(** [e.message]. *)
Definition message (e : Exn) : string :=
  match e with
  | RangeError m | SyntaxError m | TypeError m => m
  end.

(** The property names the component reads on an appointment.  None of
    them is a property of arrays, strings, numbers or booleans, nor
    inherited from [Object.prototype]. *)
Inductive Field : Set :=
| f_id | f_customerName | f_vehicleReg | f_mechanicId
| f_startTime | f_endTime | f_status.

Definition field_name (f : Field) : string :=
  match f with
  | f_id => "id"
  | f_customerName => "customerName"
  | f_vehicleReg => "vehicleReg"
  | f_mechanicId => "mechanicId"
  | f_startTime => "startTime"
  | f_endTime => "endTime"
  | f_status => "status"
  end.

(** The value of key [k] in the members of an object, [None] for
    [undefined]; of two members with one key the later counts. *)
Definition lookup (k : string) (fields : list (string * JSON)) : option JSON :=
  fold_left (fun found kv => if String.eqb (fst kv) k then Some (snd kv) else found)
            fields None.

(** [a.f]: a [TypeError] on [null], [undefined] on a value that is not an
    object or lacks the key. *)
Definition get_field (a : JSON) (f : Field) : Completion (option JSON) :=
  match a with
  | JNull => Throw (TypeError "Cannot read properties of null")
  | JObj fields => Normal (lookup (field_name f) fields)
  | _ => Normal None
  end.

(** Is a value truthy?  [undefined], [null], [false], zero, [NaN] and the
    empty string are not. *)
Definition truthy_value (v : option JSON) : bool :=
  match v with
  | None | Some JNull => false
  | Some (JBool b) => b
  | Some (JNum (S754_zero _)) | Some (JNum S754_nan) => false
  | Some (JNum _) => true
  | Some (JStr s) => JSString.truthy s
  | Some (JArr _) | Some (JObj _) => true
  end.

(** [displayLocal] on any value an appointment may hold: a truthy value
    that is not a string has no [replace] method. *)
Definition displayLocal_value (v : option JSON) : Completion string :=
  if negb (truthy_value v) then Normal "Invalid Date"
  else match v with
       | Some (JStr s) => Normal (JSString.slice (JSString.replace "T" " " s) 0 16)
       | _ => Throw (TypeError "dtStr.replace is not a function")
       end.

(** [a.status || 'SCHEDULED']. *)
Definition status_badge (a : JSON) : Completion JSON :=
  match get_field a f_status with
  | Throw e => Throw e
  | Normal v =>
      Normal (match v with
              | Some s => if truthy_value v then s else JStr "SCHEDULED"
              | None => JStr "SCHEDULED"
              end)
  end.

(** What the list computes for one appointment [a]: its key [a.id], the
    two displayed times and the value of the status badge.  How React
    draws these values is not part of the model. *)
Record ItemView : Type := mkItemView {
  key : option JSON;
  range_start : string;
  range_end : string;
  badge : JSON
}.

(**
<<
{appointments.map(a => (
  <div key={a.id} ...>
    ...
    {displayLocal(a.startTime)} -> {displayLocal(a.endTime)}
    ...
    {a.status || 'SCHEDULED'}
    <button onClick={() => cancelAppointment(a.id)} ...>
>> *)
Definition item_view (a : JSON) : Completion ItemView :=
  match get_field a f_id with
  | Throw e => Throw e
  | Normal k =>
      match get_field a f_startTime with
      | Throw e => Throw e
      | Normal s =>
          match displayLocal_value s with
          | Throw e => Throw e
          | Normal rs =>
              match get_field a f_endTime with
              | Throw e => Throw e
              | Normal en =>
                  match displayLocal_value en with
                  | Throw e => Throw e
                  | Normal re =>
                      match status_badge a with
                      | Throw e => Throw e
                      | Normal b => Normal (mkItemView k rs re b)
                      end
                  end
              end
          end
      end
  end.

(** The callback of [map] over the items, stopping at the first throw. *)
Fixpoint item_views (items : list JSON) : Completion (list ItemView) :=
  match items with
  | [] => Normal []
  | a :: rest =>
      match item_view a with
      | Throw e => Throw e
      | Normal v =>
          match item_views rest with
          | Throw e => Throw e
          | Normal vs => Normal (v :: vs)
          end
      end
  end.

(** [appointments.map(...)]: only an array has [map]. *)
Definition list_view (v : JSON) : Completion (list ItemView) :=
  match v with
  | JArr items => item_views items
  | JNull => Throw (TypeError "Cannot read properties of null")
  | _ => Throw (TypeError "appointments.map is not a function")
  end.

Section Actions.

Variable host : Host.

(** The answer of the user to [confirm(question)]. *)
Variable confirm : string -> bool.

(** [Number::toString]: the engine writes the finite values. *)
Definition number_ToString (x : JSNumber) : string :=
  match x with
  | S754_nan => "NaN"
  | S754_infinity false => "Infinity"
  | S754_infinity true => "-Infinity"
  | _ => Number_toString host x
  end.

(** ToString on a value, as a template literal applies it: an array is
    its elements joined by commas, [null] elements left empty. *)
Fixpoint ToString (v : JSON) : string :=
  match v with
  | JNull => "null"
  | JBool true => "true"
  | JBool false => "false"
  | JNum x => number_ToString x
  | JStr s => s
  | JArr items =>
      (fix join (l : list JSON) : string :=
         match l with
         | [] => EmptyString
         | x :: r =>
             (match x with
              | JNull => EmptyString
              | _ => ToString x
              end)
             ++ match r with
                | [] => EmptyString
                | _ :: _ => "," ++ join r
                end
         end) items
  | JObj _ => "[object Object]"
  end.

Definition template (v : option JSON) : string :=
  match v with
  | None => "undefined"
  | Some v => ToString v
  end.

(** The request of [cancelAppointment(id)]. *)
Definition delete_request (id : option JSON) : Request :=
  mkRequest DELETE (API ++ "/" ++ template id) [] None.

(**
<<
async function cancelAppointment(id) {
  if (!confirm("Cancel this appointment?")) return
  try {
    const res = await fetch(`${API}/${id}`, { method: "DELETE" })
    const txt = await res.text()
    if (res.ok) {
      toast.success("Appointment cancelled")
      load()
    } else {
      toast.error("Failed to cancel: " + (txt || res.status))
    }
  } catch (e) {
    console.error(e)
    toast.error("Failed to cancel: " + e.message)
  }
}
>> *)
Definition cancelAppointment (id : option JSON) : M unit :=
  if negb (confirm "Cancel this appointment?") then ret tt
  else
    try_catch
      (res <- fetch host (delete_request id) ;;
       txt <- res_text res ;;
       if ok res then
         toast_success "Appointment cancelled" ;;
         detached (load host)
       else
         toast_error ("Failed to cancel: "
                      ++ (if JSString.truthy txt then txt
                          else integer_toString (status res))))
      (fun e =>
         console_error e ;;
         toast_error ("Failed to cancel: " ++ message e)).

(** The Reset button.
<<
onClick={() => {
  setCustomer('')
  setVehicle('')
  setMechanic('')
  setStart(null)
  setEnd(null)
}}
>> *)
Definition reset : M unit :=
  setCustomer EmptyString ;;
  setVehicle EmptyString ;;
  setMechanic EmptyString ;;
  setStart None ;;
  setEnd None.

(** [useEffect(() => { load() }, [])]: on mount, [load] is called and
    not awaited. *)
Definition mount : M unit := detached (load host).

End Actions.

(** The world [cancelAppointment] leaves once the user has confirmed, by
    what the network answers to the DELETE. *)
Definition cancelled (h : Host) (id : option JSON) (w : World) : World :=
  match network h (delete_request h id) with
  | Failed e =>
      with_toast (ToastError ("Failed to cancel: " ++ message e))
                 (with_console e (with_request (delete_request h id) w))
  | Responded st txt =>
      if ok (mkResponse st txt) then
        loaded h (with_toast (ToastSuccess "Appointment cancelled")
                             (with_request (delete_request h id) w))
      else
        with_toast (ToastError ("Failed to cancel: "
                                ++ (if JSString.truthy txt then txt
                                    else integer_toString st)))
                   (with_request (delete_request h id) w)
  end.

(** [YYYY-MM-DD HH:MM] from five calendar fields: the text of the list
    for a time. *)
Definition minute_text (y mo d h mi : Z) : string :=
  JSDate.digits 4 y ++ "-" ++ JSDate.digits 2 mo ++ "-" ++ JSDate.digits 2 d
  ++ " " ++ JSDate.digits 2 h ++ ":" ++ JSDate.digits 2 mi.

(** The wall-clock reading of [t] in the host's zone, to the minute. *)
Definition wall_clock_minute (h : Host) (t : Z) : string :=
  minute_text (getFullYear h t) (getMonth h t + 1) (getDate h t)
              (getHours h t) (getMinutes h t).

(** The length of month [m] (0 for January) in a year that is leap
    ([leap = 1]) or not ([leap = 0]). *)
Definition DaysInMonth (m leap : Z) : Z :=
  match m with
  | 1 => 28 + leap
  | 3 | 5 | 8 | 10 => 30
  | _ => 31
  end.

(** The number of the day in its year, from month, day of the month and
    leap flag: the table of [DateFromTime] read backwards. *)
Definition day_of_year (m date leap : Z) : Z :=
  match m with
  | 0 => date - 1
  | 1 => date + 30
  | 2 => date + 58 + leap
  | 3 => date + 89 + leap
  | 4 => date + 119 + leap
  | 5 => date + 150 + leap
  | 6 => date + 180 + leap
  | 7 => date + 211 + leap
  | 8 => date + 242 + leap
  | 9 => date + 272 + leap
  | 10 => date + 303 + leap
  | _ => date + 333 + leap
  end.

(** The seconds since the epoch of a calendar reading. *)
Definition seconds_of_fields (y m date h mi s : Z) : Z :=
  (JSDate.DayFromYear y
   + day_of_year m date (if JSDate.DaysInYear y =? 366 then 1 else 0)) * 86400
  + h * 3600 + mi * 60 + s.

(** The four ways a run of [book] can go. *)
Inductive BookRun (h : Host) (w : World) : Completion unit * World -> Prop :=
| Rejected (msg : string) :
    passes_validation h w = false ->
    BookRun h w (Normal tt, with_toast (ToastError msg) w)
| ThrewAtStart (e : Exn) :
    passes_validation h w = true ->
    toLocalISO h (start w) = Throw e ->
    BookRun h w (Throw e, w)
| ThrewAtEnd (st : string) (e : Exn) :
    passes_validation h w = true ->
    toLocalISO h (start w) = Normal st ->
    toLocalISO h (end_ w) = Throw e ->
    BookRun h w (Throw e, w)
| Submitted (st en : string) :
    passes_validation h w = true ->
    toLocalISO h (start w) = Normal st ->
    toLocalISO h (end_ w) = Normal en ->
    BookRun h w
      (Normal tt,
       submitted h w (payload (customer w) (vehicle w) (Number h (mechanic w)) st en)).

(** A code unit other than [T]. *)
Definition not_T (c : ascii) : bool := negb (Ascii.eqb c "T").

(** The JSON text of the object that [book] sends, written out member by
    member; [mechanicId] is the text of the number. *)
Definition payload_text (customerName vehicleReg mechanicId startTime endTime : string)
  : string :=
  "{" ++ JSONText.quoted "customerName" ++ ":" ++ JSONText.quoted customerName
  ++ "," ++ JSONText.quoted "vehicleReg" ++ ":" ++ JSONText.quoted vehicleReg
  ++ "," ++ JSONText.quoted "mechanicId" ++ ":" ++ mechanicId
  ++ "," ++ JSONText.quoted "startTime" ++ ":" ++ JSONText.quoted startTime
  ++ "," ++ JSONText.quoted "endTime" ++ ":" ++ JSONText.quoted endTime ++ "}".

(** The same browser at a later moment: the clock reads [now] and the
    network answers by [net]; the zone and the engine are those of [h]. *)
Definition later (h : Host) (now : Z) (net : Request -> FetchOutcome) : Host :=
  mkHost (timezoneOffset h) now net (StringNumericValue h) (Number_toString h)
         (JSON_parse h).

(* ===================================================================== *)
(** * Lemmas on strings *)
(* ===================================================================== *)

Lemma truthy_false_iff (s : string) :
  JSString.truthy s = false <-> s = EmptyString.
Proof.
  destruct s; simpl; split; intros H; try reflexivity; discriminate.
Qed.

Lemma truthy_true_iff (s : string) :
  JSString.truthy s = true <-> s <> EmptyString.
Proof.
  destruct s; simpl; split; intros H; try reflexivity;
    try discriminate; try congruence.
Qed.

Lemma length_append (a b : string) :
  String.length (a ++ b) = (String.length a + String.length b)%nat.
Proof.
  induction a as [|c a IH]; simpl; [reflexivity | now rewrite IH].
Qed.

Lemma substring_append_head (a b : string) :
  substring 0 (String.length a) (a ++ b) = a.
Proof.
  induction a as [|c a IH]; simpl.
  - destruct b; reflexivity.
  - now rewrite IH.
Qed.

Lemma substring_whole (n : nat) (s : string) :
  (String.length s <= n)%nat -> substring 0 n s = s.
Proof.
  revert n. induction s as [|c s IH]; intros n Hn; simpl in *.
  - destruct n; reflexivity.
  - destruct n as [|n]; [lia|]. simpl. rewrite IH by lia. reflexivity.
Qed.

Lemma length_substring_head (n : nat) (s : string) :
  String.length (substring 0 n s) = Nat.min n (String.length s).
Proof.
  revert n. induction s as [|c s IH]; intros [|n]; simpl; try reflexivity.
  now rewrite IH.
Qed.

Lemma get_substring_head (n i : nat) (s : string) :
  (i < n)%nat -> get i (substring 0 n s) = get i s.
Proof.
  revert n i. induction s as [|c s IH]; intros [|n] i Hi; simpl; try lia;
    try reflexivity.
  destruct i as [|i]; [reflexivity|]. apply IH. lia.
Qed.

(** [slice(0, n)] keeps the first [n] code units. *)
Lemma slice_head (s : string) (n : nat) :
  JSString.slice s 0 (Z.of_nat n) = substring 0 n s.
Proof.
  unfold JSString.slice.
  assert (Ha : JSString.clamp (JSString.len s) 0 = 0).
  { unfold JSString.clamp, JSString.len. change (0 <? 0) with false.
    cbv iota. lia. }
  assert (Hb : JSString.clamp (JSString.len s) (Z.of_nat n)
               = Z.of_nat (Nat.min n (String.length s))).
  { unfold JSString.clamp, JSString.len.
    destruct (Z.ltb_spec (Z.of_nat n) 0); lia. }
  rewrite Ha, Hb, Z.sub_0_r, Nat2Z.id. change (Z.to_nat 0) with O.
  destruct (Z.leb_spec (Z.of_nat (Nat.min n (String.length s))) 0) as [Hle|Hgt].
  - assert (Hz : n = O \/ String.length s = O) by lia.
    destruct Hz as [-> | Hz].
    + destruct s; reflexivity.
    + destruct s; [|discriminate]. destruct n; reflexivity.
  - destruct (Nat.le_ge_cases n (String.length s)) as [Hc|Hc].
    + now rewrite Nat.min_l by lia.
    + rewrite Nat.min_r by lia. now rewrite !substring_whole by lia.
Qed.

Lemma slice_append_head (a b : string) (n : Z) :
  n = Z.of_nat (String.length a) -> JSString.slice (a ++ b) 0 n = a.
Proof.
  intros ->. rewrite slice_head. apply substring_append_head.
Qed.

(* ===================================================================== *)
(** * displayLocal *)
(* ===================================================================== *)

Lemma get_replace_T (s : string) (i : nat) :
  get i (JSString.replace "T" " " s) = first_T_spaced s i.
Proof.
  unfold first_T_spaced. revert i.
  induction s as [|c s IH]; intros i.
  - reflexivity.
  - cbn [JSString.replace index].
    destruct (prefix "T" (String c s)) eqn:Hp.
    + cbn [String.length JSString.drop append].
      destruct i as [|i]; reflexivity.
    + destruct i as [|i].
      * cbn [get]. destruct (index 0 "T" s); reflexivity.
      * cbn [get]. rewrite IH.
        destruct (index 0 "T" s) as [k|]; reflexivity.
Qed.

Lemma length_replace_T (s : string) :
  String.length (JSString.replace "T" " " s) = String.length s.
Proof.
  induction s as [|c s IH].
  - reflexivity.
  - cbn [JSString.replace].
    destruct (prefix "T" (String c s)).
    + reflexivity.
    + cbn [String.length]. now rewrite IH.
Qed.

(** C9.  [displayLocal] gives the literal text [Invalid Date] for a null
    and for an empty input.  For a non-empty string [s] it gives the
    first 16 code units of [s], the first [T] of [s] turned into a space:
    the result has [min 16 (length s)] code units and agrees at each index
    with [s] after that one replacement.  It reads nothing but [s] (no
    time zone, no validation); ["2024-03-01T09:30:00"] is rendered as
    ["2024-03-01 09:30"]. *)
Theorem displayLocal_spec (s : string) :
  displayLocal None = "Invalid Date"
  /\ displayLocal (Some EmptyString) = "Invalid Date"
  /\ (s <> EmptyString ->
      displayLocal (Some s)
        = substring 0 16 (JSString.replace "T" " " s)
      /\ String.length (displayLocal (Some s)) = Nat.min 16 (String.length s)
      /\ forall i, (i < 16)%nat ->
           get i (displayLocal (Some s)) = first_T_spaced s i)
  /\ displayLocal (Some "2024-03-01T09:30:00") = "2024-03-01 09:30".
Proof.
  repeat split.
  - unfold displayLocal. apply truthy_true_iff in H. rewrite H. cbn [negb].
    apply (slice_head _ 16).
  - unfold displayLocal. apply truthy_true_iff in H. rewrite H. cbn [negb].
    rewrite (slice_head _ 16), length_substring_head, length_replace_T.
    reflexivity.
  - intros i Hi. unfold displayLocal. apply truthy_true_iff in H.
    rewrite H. cbn [negb].
    rewrite (slice_head _ 16), get_substring_head by exact Hi.
    apply get_replace_T.
Qed.

Lemma displayLocal_spec_witness :
  "2024-03-01T09:30:00" <> EmptyString
  /\ displayLocal (Some "2024-03-01T09:30:00") = "2024-03-01 09:30"
  /\ get 10 (displayLocal (Some "2024-03-01T09:30:00")) = Some " "%char.
Proof.
  assert (Hne : "2024-03-01T09:30:00" <> EmptyString) by discriminate.
  destruct (displayLocal_spec "2024-03-01T09:30:00") as (_ & _ & H & Hex).
  destruct (H Hne) as (_ & _ & Hget).
  split; [exact Hne|]. split; [exact Hex|].
  rewrite (Hget 10%nat) by lia. reflexivity.
Defined.

(* ===================================================================== *)
(** * Calendar arithmetic *)
(* ===================================================================== *)

Example iso_string_epoch :
  JSDate.iso_string 0 = "1970-01-01T00:00:00.000Z".
Proof. reflexivity. Qed.

Example iso_string_leap_day :
  JSDate.iso_string 1709251199999 = "2024-02-29T23:59:59.999Z".
Proof. reflexivity. Qed.

Example iso_string_before_epoch :
  JSDate.iso_string (-1) = "1969-12-31T23:59:59.999Z".
Proof. reflexivity. Qed.

Example iso_string_year_10000 :
  JSDate.iso_string 253402300800000 = "+010000-01-01T00:00:00.000Z".
Proof. reflexivity. Qed.

Example iso_string_year_minus_1 :
  JSDate.iso_string (-62198755200000) = "-000001-01-01T00:00:00.000Z".
Proof. reflexivity. Qed.

Example iso_string_end_of_2024 :
  JSDate.iso_string 1735689599000 = "2024-12-31T23:59:59.000Z".
Proof. reflexivity. Qed.

Example iso_string_leap_day_2000 :
  JSDate.iso_string 951825600000 = "2000-02-29T12:00:00.000Z".
Proof. reflexivity. Qed.

Example iso_string_march_1900 :
  JSDate.iso_string (-2203891200000) = "1900-03-01T00:00:00.000Z".
Proof. reflexivity. Qed.

Example iso_string_march_2023 :
  JSDate.iso_string 1677628800000 = "2023-03-01T00:00:00.000Z".
Proof. reflexivity. Qed.

(** [YearFromDay d] is a year that holds day [d]. *)
Lemma YearFromDay_spec (d : Z) :
  JSDate.DayFromYear (JSDate.YearFromDay d) <= d
  < JSDate.DayFromYear (JSDate.YearFromDay d + 1).
Proof.
  unfold JSDate.YearFromDay.
  set (y := 1970 + 400 * d / 146097).
  assert (Hy : 146097 * (y - 1970) <= 400 * d < 146097 * (y - 1970) + 146097).
  { unfold y. pose proof (Z.div_mod (400 * d) 146097 ltac:(lia)).
    pose proof (Z.mod_pos_bound (400 * d) 146097 ltac:(lia)). lia. }
  clearbody y.
  destruct (Z.leb_spec (JSDate.DayFromYear (y + 1)) d) as [H1|H1].
  - split; [lia|]. unfold JSDate.DayFromYear in *.
    Z.div_mod_to_equations; lia.
  - destruct (Z.leb_spec (JSDate.DayFromYear y) d) as [H2|H2].
    + split; lia.
    + split; [|replace (y - 1 + 1) with y by lia; lia].
      unfold JSDate.DayFromYear in *. Z.div_mod_to_equations; lia.
Qed.

Lemma DayFromYear_mono (y1 y2 : Z) :
  y1 <= y2 -> JSDate.DayFromYear y1 <= JSDate.DayFromYear y2.
Proof.
  intros H. unfold JSDate.DayFromYear. Z.div_mod_to_equations; lia.
Qed.

(** The days of a year, by the leap-year rule, are the days between its
    first day and the next year's. *)
Lemma DaysInYear_spec (y : Z) :
  JSDate.DayFromYear (y + 1) - JSDate.DayFromYear y = JSDate.DaysInYear y.
Proof.
  unfold JSDate.DaysInYear, JSDate.DayFromYear.
  destruct (Z.eqb_spec (y mod 4) 0); destruct (Z.eqb_spec (y mod 100) 0);
    destruct (Z.eqb_spec (y mod 400) 0); cbn [negb];
    Z.div_mod_to_equations; lia.
Qed.

(** It is the only one: the largest [y] with [DayFromYear y <= d], as
    YearFromTime is defined. *)
Lemma YearFromDay_largest (d y : Z) :
  JSDate.DayFromYear y <= d -> y <= JSDate.YearFromDay d.
Proof.
  intros H. destruct (YearFromDay_spec d) as [_ Hlt].
  destruct (Z.le_gt_cases y (JSDate.YearFromDay d)) as [Hle|Hgt]; [exact Hle|].
  pose proof (DayFromYear_mono (JSDate.YearFromDay d + 1) y ltac:(lia)). lia.
Qed.

(** A time value whose year has four digits is far inside the range of
    time values. *)
Lemma four_digit_year_in_range (t : Z) :
  0 <= JSDate.YearFromTime t <= 9999 -> Z.abs t <= JSDate.maxTime.
Proof.
  unfold JSDate.YearFromTime, JSDate.Day. intros [Hlo Hhi].
  destruct (YearFromDay_spec (t / JSDate.msPerDay)) as [H1 H2].
  pose proof (DayFromYear_mono 0 _ Hlo) as H3.
  pose proof (DayFromYear_mono (JSDate.YearFromDay (t / JSDate.msPerDay) + 1)
                               10000 ltac:(lia)) as H4.
  change (JSDate.DayFromYear 0) with (-719528) in H3.
  change (JSDate.DayFromYear 10000) with 2932897 in H4.
  unfold JSDate.msPerDay, JSDate.maxTime in *.
  pose proof (Z.div_mod t 86400000 ltac:(lia)).
  pose proof (Z.mod_pos_bound t 86400000 ltac:(lia)). lia.
Qed.

Lemma length_digits (w : nat) (n : Z) : String.length (JSDate.digits w n) = w.
Proof.
  revert n. induction w as [|w IH]; intros n; simpl; [reflexivity|].
  rewrite length_append, IH. cbn [String.length]. lia.
Qed.

Lemma digit_is_digit (n : Z) : StringToNumber.is_digit (JSDate.digit n) = true.
Proof.
  unfold StringToNumber.is_digit, StringToNumber.in_range, StringToNumber.code,
    JSDate.digit.
  pose proof (Z.mod_pos_bound n 10 ltac:(lia)) as Hm.
  rewrite nat_ascii_embedding by lia.
  apply andb_true_iff. split; apply Nat.leb_le; lia.
Qed.

Lemma list_ascii_of_string_append (a b : string) :
  list_ascii_of_string (a ++ b)
  = (list_ascii_of_string a ++ list_ascii_of_string b)%list.
Proof.
  induction a as [|c a IH]; simpl; [reflexivity | now rewrite IH].
Qed.

(** The [w] digits of [n], as a list of decimal digits. *)
Lemma digits_chars (w : nat) (n : Z) :
  exists l, list_ascii_of_string (JSDate.digits w n) = l
            /\ List.length l = w
            /\ forallb StringToNumber.is_digit l = true.
Proof.
  revert n. induction w as [|w IH]; intros n.
  - exists []. repeat split.
  - destruct (IH (n / 10)) as (l & Hl & Hlen & Hall).
    exists (l ++ [JSDate.digit n])%list. cbn [JSDate.digits].
    rewrite list_ascii_of_string_append, Hl. split; [reflexivity|].
    split.
    + rewrite length_app, Hlen. cbn [List.length]. lia.
    + rewrite forallb_app, Hall. cbn [forallb]. now rewrite digit_is_digit.
Qed.

(* ===================================================================== *)
(** * toLocalISO *)
(* ===================================================================== *)

Lemma string_app_assoc (a b c : string) : (a ++ b) ++ c = a ++ (b ++ c).
Proof.
  induction a as [|x a IH]; simpl; [reflexivity | now rewrite IH].
Qed.

(** On a valid date whose local time is a time value, [toLocalISO] is the
    head of the ISO text of the local time. *)
Lemma toLocalISO_valid (h : Host) (t : Z) :
  Z.abs (LocalTime h t) <= JSDate.maxTime ->
  toLocalISO h (Some (mkDate (Some t)))
  = Normal (JSString.slice (JSDate.iso_string (LocalTime h t)) 0 19).
Proof.
  intros Hr.
  unfold toLocalISO, getTimezoneOffset, JSDate.mul, JSDate.sub, JSDate.of_number,
    JSDate.TimeClip, toISOString.
  cbn [time_value].
  replace (t - timezoneOffset h t * 60000) with (LocalTime h t)
    by (unfold LocalTime, JSDate.msPerMinute; lia).
  destruct (Z.leb_spec (Z.abs (LocalTime h t)) JSDate.maxTime) as [_|Hgt]; [|lia].
  reflexivity.
Qed.

(** On an invalid date it throws. *)
Lemma toLocalISO_invalid (h : Host) :
  toLocalISO h (Some (mkDate None)) = Throw (RangeError "Invalid time value").
Proof. reflexivity. Qed.

(** The first 19 code units of the ISO text of a time value whose year
    has four digits are its six calendar fields. *)
Lemma slice_iso_string (t : Z) :
  0 <= JSDate.YearFromTime t <= 9999 ->
  JSString.slice (JSDate.iso_string t) 0 19
  = naive_local (JSDate.YearFromTime t) (JSDate.MonthFromTime t + 1)
                (JSDate.DateFromTime t) (JSDate.HourFromTime t)
                (JSDate.MinFromTime t) (JSDate.SecFromTime t).
Proof.
  intros [Hlo Hhi].
  unfold JSDate.iso_string, JSDate.iso_year.
  destruct (Z.leb_spec 0 (JSDate.YearFromTime t)) as [_|?]; [|lia].
  destruct (Z.leb_spec (JSDate.YearFromTime t) 9999) as [_|?]; [|lia].
  cbn [andb].
  set (tail := "." ++ JSDate.digits 3 (JSDate.msFromTime t) ++ "Z").
  match goal with
  | |- JSString.slice ?s 0 19 = ?n =>
      assert (Hs : s = n ++ tail)
  end.
  { unfold naive_local. rewrite !string_app_assoc. reflexivity. }
  rewrite Hs. apply slice_append_head.
  unfold naive_local. rewrite !length_append, !length_digits. reflexivity.
Qed.

Lemma toLocalISO_wall_clock (h : Host) (t : Z) :
  0 <= getFullYear h t <= 9999 ->
  toLocalISO h (Some (mkDate (Some t))) = Normal (wall_clock h t).
Proof.
  intros Hy. unfold getFullYear in Hy.
  rewrite toLocalISO_valid by (apply four_digit_year_in_range; exact Hy).
  rewrite slice_iso_string by exact Hy. reflexivity.
Qed.

Lemma naive_local_has_form (y mo d h mi s : Z) :
  naive_local_form (naive_local y mo d h mi s) = true.
Proof.
  unfold naive_local_form, naive_local.
  rewrite !list_ascii_of_string_append.
  destruct (digits_chars 4 y) as (ly & -> & Hly & Hy).
  destruct (digits_chars 2 mo) as (lmo & -> & Hlmo & Hmo).
  destruct (digits_chars 2 d) as (ld & -> & Hld & Hd).
  destruct (digits_chars 2 h) as (lh & -> & Hlh & Hh).
  destruct (digits_chars 2 mi) as (lmi & -> & Hlmi & Hmi).
  destruct (digits_chars 2 s) as (ls & -> & Hls & Hs).
  destruct ly as [|y1 [|y2 [|y3 [|y4 [|? ?]]]]]; try discriminate.
  destruct lmo as [|m1 [|m2 [|? ?]]]; try discriminate.
  destruct ld as [|d1 [|d2 [|? ?]]]; try discriminate.
  destruct lh as [|h1 [|h2 [|? ?]]]; try discriminate.
  destruct lmi as [|i1 [|i2 [|? ?]]]; try discriminate.
  destruct ls as [|c1 [|c2 [|? ?]]]; try discriminate.
  cbn [forallb] in *.
  repeat match goal with
         | H : (_ && _)%bool = true |- _ => apply andb_true_iff in H; destruct H
         end.
  cbn [list_ascii_of_string app forallb].
  repeat match goal with
         | H : StringToNumber.is_digit _ = true |- _ => rewrite H; clear H
         end.
  reflexivity.
Qed.

(* ===================================================================== *)
(** * load *)
(* ===================================================================== *)

Lemma load_run (h : Host) (w : World) : load h w = (Normal tt, loaded h w).
Proof.
  unfold load, loaded, try_catch, bind, fetch, res_json, setAppointments,
    console_error, modify, ret, throw.
  fold get_appointments.
  destruct (network h get_appointments) as [e|st txt]; [reflexivity|].
  cbn [text]. destruct (JSON_parse h txt); reflexivity.
Qed.

(** [load] sends one GET and touches neither the form nor the toasts. *)
Lemma loaded_frame (h : Host) (w : World) :
  requests (loaded h w) = (requests w ++ [get_appointments])%list
  /\ toasts (loaded h w) = toasts w
  /\ draft (loaded h w) = draft w.
Proof.
  unfold loaded.
  destruct (network h get_appointments) as [e|st txt];
    [|destruct (JSON_parse h txt)]; repeat split.
Qed.

(** C7.  When the GET fails, or when its body does not parse, [load]
    has sent its one GET and returns normally with the appointment list,
    the toasts and the draft as they were; the error that was thrown (the
    one of the network, or the [SyntaxError] of the parser) is the one
    entry appended to the console log. *)
Theorem load_failure_keeps_list (h : Host) (w : World) :
  ((exists e, network h (mkRequest GET API [] None) = Failed e)
   \/ (exists st txt, network h (mkRequest GET API [] None) = Responded st txt
                      /\ JSON_parse h txt = None)) ->
  completion (load h) w = Normal tt
  /\ requests (exec (load h) w) = (requests w ++ [mkRequest GET API [] None])%list
  /\ appointments (exec (load h) w) = appointments w
  /\ toasts (exec (load h) w) = toasts w
  /\ draft (exec (load h) w) = draft w
  /\ (forall e, network h (mkRequest GET API [] None) = Failed e ->
       console (exec (load h) w) = (console w ++ [e])%list)
  /\ (forall st txt, network h (mkRequest GET API [] None) = Responded st txt ->
       JSON_parse h txt = None ->
       exists msg, console (exec (load h) w) = (console w ++ [SyntaxError msg])%list).
Proof.
  intros H. unfold completion, exec. rewrite load_run. cbn [fst snd].
  destruct (loaded_frame h w) as (Hr & Ht & Hd).
  split; [reflexivity|]. split; [exact Hr|].
  split; [|split; [exact Ht|split; [exact Hd|split]]].
  - unfold loaded. fold get_appointments in H.
    destruct H as [[e He] | (st & txt & Hn & Hp)].
    + now rewrite He.
    + now rewrite Hn, Hp.
  - intros e He. unfold loaded. fold get_appointments in He. now rewrite He.
  - intros st txt Hn Hp. unfold loaded. fold get_appointments in Hn.
    rewrite Hn, Hp. eexists. reflexivity.
Qed.

(** C7, an instance: the server is down. *)
Lemma load_failure_keeps_list_witness :
  appointments (exec (load (Demo.host 0 0 (fun _ => Failed (TypeError "Failed to fetch"))))
                     Demo.listed)
  = appointments Demo.listed
  /\ console (exec (load (Demo.host 0 0 (fun _ => Failed (TypeError "Failed to fetch"))))
                   Demo.listed)
     = [TypeError "Failed to fetch"].
Proof.
  destruct (load_failure_keeps_list
              (Demo.host 0 0 (fun _ => Failed (TypeError "Failed to fetch")))
              Demo.listed) as (_ & _ & Ha & _ & _ & Hc & _).
  - left. exists (TypeError "Failed to fetch"). reflexivity.
  - split; [exact Ha|]. apply (Hc (TypeError "Failed to fetch")). reflexivity.
Defined.

(** C8.  [load] does not look at the status: whatever the status [st],
    when the body parses to [v] the appointment list becomes [v], an
    array or not, and nothing else changes but the request log. *)
Theorem load_ignores_status (h : Host) (w : World) (st : Z) (txt : string)
    (v : JSON) :
  network h get_appointments = Responded st txt ->
  JSON_parse h txt = Some v ->
  exec (load h) w = with_appointments v (with_request get_appointments w)
  /\ appointments (exec (load h) w) = v.
Proof.
  intros Hn Hp. unfold exec. rewrite load_run. cbn [snd].
  unfold loaded. rewrite Hn, Hp. split; reflexivity.
Qed.

(** C8, an instance: a 500 whose body is a JSON object. *)
Lemma load_ignores_status_witness :
  appointments (exec (load (Demo.host 0 0 (fun _ => Responded 500 "{}")))
                     Demo.listed)
  = JObj [].
Proof.
  apply (load_ignores_status (Demo.host 0 0 (fun _ => Responded 500 "{}"))
                             Demo.listed 500 "{}" (JObj []));
    reflexivity.
Defined.

(* ===================================================================== *)
(** * book *)
(* ===================================================================== *)

Lemma passes_validation_inv (h : Host) (w : World) :
  passes_validation h w = true ->
  (negb (JSString.truthy (customer w)) || negb (JSString.truthy (vehicle w))
   || negb (JSString.truthy (mechanic w)) || is_null (start w)
   || is_null (end_ w)) = false
  /\ JSDate.lt (date_number (start w)) (mkDate (Some (clock h))) = false
  /\ JSDate.le (date_number (end_ w)) (date_number (start w)) = false.
Proof.
  unfold passes_validation. intros Hv.
  apply andb_true_iff in Hv. destruct Hv as [Hv H3].
  apply andb_true_iff in Hv. destruct Hv as [H1 H2].
  apply negb_true_iff in H1, H2, H3. auto.
Qed.

(** A draft failing the first validation. *)
Lemma book_missing (h : Host) (w : World) :
  (negb (JSString.truthy (customer w)) || negb (JSString.truthy (vehicle w))
   || negb (JSString.truthy (mechanic w)) || is_null (start w)
   || is_null (end_ w)) = true ->
  book h w = (Normal tt, with_toast (ToastError "Please fill all fields") w).
Proof.
  intros H. unfold book. rewrite H. reflexivity.
Qed.

(** A draft failing the second validation. *)
Lemma book_past (h : Host) (w : World) :
  (negb (JSString.truthy (customer w)) || negb (JSString.truthy (vehicle w))
   || negb (JSString.truthy (mechanic w)) || is_null (start w)
   || is_null (end_ w)) = false ->
  JSDate.lt (date_number (start w)) (mkDate (Some (clock h))) = true ->
  book h w = (Normal tt, with_toast (ToastError "Cannot schedule in the past") w).
Proof.
  intros H1 H2. unfold book. rewrite H1.
  unfold bind, new_Date, ret. rewrite H2. reflexivity.
Qed.

(** A draft failing the third validation. *)
Lemma book_order (h : Host) (w : World) :
  (negb (JSString.truthy (customer w)) || negb (JSString.truthy (vehicle w))
   || negb (JSString.truthy (mechanic w)) || is_null (start w)
   || is_null (end_ w)) = false ->
  JSDate.lt (date_number (start w)) (mkDate (Some (clock h))) = false ->
  JSDate.le (date_number (end_ w)) (date_number (start w)) = true ->
  book h w
  = (Normal tt, with_toast (ToastError "End time must be after start time") w).
Proof.
  intros H1 H2 H3. unfold book. rewrite H1.
  unfold bind, new_Date, ret. rewrite H2, H3. reflexivity.
Qed.

(** A draft passing the three validations, whose dates serialize. *)
Lemma book_run (h : Host) (w : World) (st en : string) :
  passes_validation h w = true ->
  toLocalISO h (start w) = Normal st ->
  toLocalISO h (end_ w) = Normal en ->
  book h w
  = (Normal tt,
     submitted h w (payload (customer w) (vehicle w) (Number h (mechanic w)) st en)).
Proof.
  intros Hv Hs He.
  destruct (passes_validation_inv h w Hv) as (H1 & H2 & H3).
  unfold book. rewrite H1.
  unfold bind, new_Date, ret. rewrite H2, H3.
  unfold lift. rewrite Hs, He.
  unfold submitted, try_catch, fetch, res_text, ret.
  destruct (network h _) as [e|status txt]; [reflexivity|].
  cbn [text]. destruct (ok (mkResponse status txt)); [|reflexivity].
  unfold toast_success, setCustomer, setVehicle, setMechanic, setStart, setEnd,
    detached, modify, cleared.
  rewrite load_run. reflexivity.
Qed.

(** A draft passing the three validations, one of whose dates is
    invalid: [book] throws before any request. *)
Lemma book_throws (h : Host) (w : World) (e : Exn) :
  passes_validation h w = true ->
  toLocalISO h (start w) = Throw e ->
  book h w = (Throw e, w).
Proof.
  intros Hv Hs.
  destruct (passes_validation_inv h w Hv) as (H1 & H2 & H3).
  unfold book. rewrite H1.
  unfold bind, new_Date, ret. rewrite H2, H3.
  unfold lift. rewrite Hs. reflexivity.
Qed.

(** A draft that does not pass the three validations is answered by one
    error toast and nothing else: [passes_validation] is exactly the
    condition under which [book] goes on to build the payload. *)
Lemma book_rejected (h : Host) (w : World) :
  passes_validation h w = false ->
  exists msg, book h w = (Normal tt, with_toast (ToastError msg) w).
Proof.
  unfold passes_validation. intros Hv.
  destruct (negb (JSString.truthy (customer w)) || negb (JSString.truthy (vehicle w))
            || negb (JSString.truthy (mechanic w)) || is_null (start w)
            || is_null (end_ w)) eqn:H1.
  - eexists. apply book_missing. exact H1.
  - destruct (JSDate.lt (date_number (start w)) (mkDate (Some (clock h)))) eqn:H2.
    + eexists. apply book_past; assumption.
    + destruct (JSDate.le (date_number (end_ w)) (date_number (start w))) eqn:H3.
      * eexists. apply book_order; assumption.
      * discriminate Hv.
Qed.

(** On a freshly mounted component the Book button only asks for the
    fields. *)
Example book_initial (h : Host) :
  book h initial = (Normal tt, with_toast (ToastError "Please fill all fields") initial).
Proof. apply book_missing. reflexivity. Qed.

(** An invalid start date passes the three validations, since every
    comparison with [NaN] is false; [toISOString] then throws out of
    [book], before any request and without a toast. *)
Example book_invalid_start (h : Host) (te : Z) :
  book h (Demo.form "7" (Some (mkDate None)) (Demo.at_ te))
  = (Throw (RangeError "Invalid time value"),
     Demo.form "7" (Some (mkDate None)) (Demo.at_ te)).
Proof. apply book_throws; reflexivity. Qed.

Lemma all_filled (w : World) (s e : Date) :
  customer w <> EmptyString -> vehicle w <> EmptyString ->
  mechanic w <> EmptyString -> start w = Some s -> end_ w = Some e ->
  (negb (JSString.truthy (customer w)) || negb (JSString.truthy (vehicle w))
   || negb (JSString.truthy (mechanic w)) || is_null (start w)
   || is_null (end_ w)) = false.
Proof.
  intros Hc Hv Hm Hs He.
  apply truthy_true_iff in Hc, Hv, Hm. rewrite Hc, Hv, Hm, Hs, He. reflexivity.
Qed.

(** C2.  When one of the five fields of the draft is empty or null,
    [book] sends nothing and shows the one toast ["Please fill all
    fields"]. *)
Theorem book_rejects_missing_field (h : Host) (w : World) :
  customer w = EmptyString \/ vehicle w = EmptyString
  \/ mechanic w = EmptyString \/ start w = None \/ end_ w = None ->
  requests (exec (book h) w) = requests w
  /\ toasts (exec (book h) w)
     = (toasts w ++ [ToastError "Please fill all fields"])%list.
Proof.
  intros H. unfold exec. rewrite book_missing; [split; reflexivity|].
  destruct H as [H | [H | [H | [H | H]]]]; rewrite H; cbn [JSString.truthy negb is_null orb];
    repeat rewrite orb_true_r; reflexivity.
Qed.

Lemma book_rejects_missing_field_witness :
  mechanic (Demo.form EmptyString (Demo.at_ 10) (Demo.at_ 20)) = EmptyString
  /\ requests (exec (book (Demo.host 0 0 Demo.accepts))
                    (Demo.form EmptyString (Demo.at_ 10) (Demo.at_ 20))) = []
  /\ toasts (exec (book (Demo.host 0 0 Demo.accepts))
                  (Demo.form EmptyString (Demo.at_ 10) (Demo.at_ 20)))
     = [ToastError "Please fill all fields"].
Proof.
  split; [reflexivity|].
  apply (book_rejects_missing_field (Demo.host 0 0 Demo.accepts)
           (Demo.form EmptyString (Demo.at_ 10) (Demo.at_ 20))).
  right. right. left. reflexivity.
Defined.

(** C3.  When the five fields are filled and the start lies strictly
    before the clock, [book] sends nothing and shows the one toast
    ["Cannot schedule in the past"], whatever the end date [e] is: before
    the start, after it, or invalid. *)
Theorem book_rejects_past_start (h : Host) (w : World) (ts : Z) (e : Date) :
  customer w <> EmptyString -> vehicle w <> EmptyString ->
  mechanic w <> EmptyString ->
  start w = Some (mkDate (Some ts)) -> end_ w = Some e ->
  ts < clock h ->
  requests (exec (book h) w) = requests w
  /\ toasts (exec (book h) w)
     = (toasts w ++ [ToastError "Cannot schedule in the past"])%list.
Proof.
  intros Hc Hv Hm Hs He Hlt. unfold exec.
  rewrite book_past; [split; reflexivity | eapply all_filled; eassumption |].
  rewrite Hs. unfold JSDate.lt, date_number. cbn [time_value].
  apply Z.ltb_lt. exact Hlt.
Qed.

Lemma book_rejects_past_start_witness :
  toasts (exec (book (Demo.host 0 Demo.new_year_2024 Demo.accepts))
               (Demo.form "7" (Demo.at_ (Demo.new_year_2024 - 60000))
                          (Demo.at_ (Demo.new_year_2024 + 3600000))))
  = [ToastError "Cannot schedule in the past"].
Proof.
  apply (book_rejects_past_start (Demo.host 0 Demo.new_year_2024 Demo.accepts)
           (Demo.form "7" (Demo.at_ (Demo.new_year_2024 - 60000))
                      (Demo.at_ (Demo.new_year_2024 + 3600000)))
           (Demo.new_year_2024 - 60000)
           (mkDate (Some (Demo.new_year_2024 + 3600000))));
    try discriminate; try reflexivity.
Defined.

(** C4.  When the five fields are filled, the start is not before the
    clock and the end is at or before the start, [book] sends nothing and
    shows the one toast ["End time must be after start time"]. *)
Theorem book_rejects_end_not_after_start (h : Host) (w : World) (ts te : Z) :
  customer w <> EmptyString -> vehicle w <> EmptyString ->
  mechanic w <> EmptyString ->
  start w = Some (mkDate (Some ts)) -> end_ w = Some (mkDate (Some te)) ->
  clock h <= ts -> te <= ts ->
  requests (exec (book h) w) = requests w
  /\ toasts (exec (book h) w)
     = (toasts w ++ [ToastError "End time must be after start time"])%list.
Proof.
  intros Hc Hv Hm Hs He Hnow Hle. unfold exec.
  rewrite book_order; [split; reflexivity | eapply all_filled; eassumption | |].
  - rewrite Hs. unfold JSDate.lt, date_number. cbn [time_value].
    apply Z.ltb_ge. exact Hnow.
  - rewrite Hs, He. unfold JSDate.le, date_number. cbn [time_value].
    apply Z.leb_le. exact Hle.
Qed.

Lemma book_rejects_end_not_after_start_witness :
  toasts (exec (book (Demo.host 0 Demo.new_year_2024 Demo.accepts))
               (Demo.form "7" (Demo.at_ (Demo.new_year_2024 + 3600000))
                          (Demo.at_ (Demo.new_year_2024 + 3600000))))
  = [ToastError "End time must be after start time"].
Proof.
  apply (book_rejects_end_not_after_start
           (Demo.host 0 Demo.new_year_2024 Demo.accepts)
           (Demo.form "7" (Demo.at_ (Demo.new_year_2024 + 3600000))
                      (Demo.at_ (Demo.new_year_2024 + 3600000)))
           (Demo.new_year_2024 + 3600000) (Demo.new_year_2024 + 3600000));
    try discriminate; try reflexivity.
Defined.

Lemma ok_iff (st : Z) (txt : string) :
  ok (mkResponse st txt) = true <-> 200 <= st <= 299.
Proof.
  unfold ok. cbn [status]. rewrite andb_true_iff, !Z.leb_le. reflexivity.
Qed.



(** C6.  When the POST of [book] is answered with a status outside 200 to
    299, [book] shows one error toast: the body text when it is not
    empty (so ["Mechanic double-booked"] for that body), the generic
    ["Error booking appointment"] when it is empty; the five fields of the
    draft stay as they were. *)
Theorem book_failure_shows_body (h : Host) (w : World)
    (st en : string) (code : Z) (txt : string) :
  passes_validation h w = true ->
  toLocalISO h (start w) = Normal st ->
  toLocalISO h (end_ w) = Normal en ->
  network h (post h (payload (customer w) (vehicle w) (Number h (mechanic w)) st en))
  = Responded code txt ->
  code < 200 \/ 299 < code ->
  (txt <> EmptyString ->
   toasts (exec (book h) w) = (toasts w ++ [ToastError txt])%list)
  /\ (txt = "Mechanic double-booked" ->
      toasts (exec (book h) w)
      = (toasts w ++ [ToastError "Mechanic double-booked"])%list)
  /\ (txt = EmptyString ->
      toasts (exec (book h) w)
      = (toasts w ++ [ToastError "Error booking appointment"])%list)
  /\ draft (exec (book h) w) = draft w.
Proof.
  intros Hv Hs He Hn Hc. unfold exec.
  rewrite (book_run h w st en Hv Hs He). cbn [snd].
  unfold submitted. rewrite Hn.
  assert (Hok : ok (mkResponse code txt) = false).
  { destruct (ok (mkResponse code txt)) eqn:E; [|reflexivity].
    apply ok_iff in E. lia. }
  rewrite Hok. repeat split.
  - intros Hne. apply truthy_true_iff in Hne. cbn [toasts with_toast with_request].
    now rewrite Hne.
  - intros ->. reflexivity.
  - intros ->. reflexivity.
Qed.

Lemma book_failure_shows_body_witness :
  toasts (exec (book (Demo.host 0 Demo.new_year_2024
                        (Demo.server (Responded 409 "Mechanic double-booked")
                                     (Responded 200 "[]"))))
               (Demo.form "7" (Demo.at_ (Demo.new_year_2024 + 3600000))
                          (Demo.at_ (Demo.new_year_2024 + 7200000))))
  = [ToastError "Mechanic double-booked"].
Proof.
  apply (book_failure_shows_body
           (Demo.host 0 Demo.new_year_2024
              (Demo.server (Responded 409 "Mechanic double-booked")
                           (Responded 200 "[]")))
           (Demo.form "7" (Demo.at_ (Demo.new_year_2024 + 3600000))
                      (Demo.at_ (Demo.new_year_2024 + 7200000)))
           "2024-01-01T01:00:00" "2024-01-01T02:00:00" 409
           "Mechanic double-booked");
    try reflexivity.
  right. reflexivity.
Defined.

(** Once the payload is built, exactly one POST goes out, first. *)
Lemma submitted_requests (h : Host) (w : World) (p : JSON) :
  exists rest,
    requests (submitted h w p) = (requests w ++ post h p :: rest)%list
    /\ filter is_POST rest = [].
Proof.
  unfold submitted.
  destruct (network h (post h p)) as [e|code txt].
  - exists []. split; reflexivity.
  - destruct (ok (mkResponse code txt)).
    + exists [get_appointments].
      match goal with
      | |- context [loaded h ?w0] => destruct (loaded_frame h w0) as (Hr & _ & _)
      end.
      rewrite Hr. split; [|reflexivity].
      cbn [requests cleared with_end with_start with_mechanic with_vehicle
           with_customer with_toast with_request].
      rewrite <- app_assoc. reflexivity.
    + exists []. split; reflexivity.
Qed.

(** The request of [book], field by field: method, address, header, and
    as body the JSON text of the payload. *)
Lemma post_request (h : Host) (c v : string) (x : JSNumber) (st en : string) :
  post h (payload c v x st en)
  = mkRequest POST API [("Content-Type", "application/json")]
      (Some (JSON_stringify h
               (JObj [ ("customerName", JStr c); ("vehicleReg", JStr v);
                       ("mechanicId", JNum x); ("startTime", JStr st);
                       ("endTime", JStr en) ]))).
Proof. reflexivity. Qed.

Lemma stringify_payload (h : Host) (c v : string) (x : JSNumber) (st en : string) :
  JSON_stringify h
    (JObj [ ("customerName", JStr c); ("vehicleReg", JStr v);
            ("mechanicId", JNum x); ("startTime", JStr st); ("endTime", JStr en) ])
  = payload_text c v (JSONText.number (Number_toString h) x) st en.
Proof.
  unfold JSON_stringify, payload_text. cbn [JSONText.stringify].
  rewrite !string_app_assoc. reflexivity.
Qed.

(** C1, amended.  For a draft that passes the three validations and
    whose start and end have local years from 0 to 9999, [book] sends
    exactly one POST: to the collection address, with the JSON content
    type, its body the JSON text of an object of five members.  The
    member [mechanicId] is [Number(mechanic)]; [startTime] and [endTime]
    are the wall-clock readings of start and end in the zone of the host,
    both of the shape [YYYY-MM-DDTHH:MM:SS]; whatever the offset of the
    host, a start that reads 2024-01-01 14:00 locally is sent as
    ["2024-01-01T14:00:00"]. *)
Theorem book_posts_naive_local (h : Host) (w : World) (ts te : Z) :
  passes_validation h w = true ->
  start w = Some (mkDate (Some ts)) ->
  end_ w = Some (mkDate (Some te)) ->
  0 <= getFullYear h ts <= 9999 ->
  0 <= getFullYear h te <= 9999 ->
  (exists rest,
     requests (exec (book h) w)
     = (requests w
        ++ mkRequest POST API [("Content-Type", "application/json")]
             (Some (JSON_stringify h
                      (JObj [ ("customerName", JStr (customer w));
                              ("vehicleReg", JStr (vehicle w));
                              ("mechanicId", JNum (Number h (mechanic w)));
                              ("startTime", JStr (wall_clock h ts));
                              ("endTime", JStr (wall_clock h te)) ])))
           :: rest)%list
     /\ filter is_POST rest = [])
  /\ JSON_stringify h
       (JObj [ ("customerName", JStr (customer w));
               ("vehicleReg", JStr (vehicle w));
               ("mechanicId", JNum (Number h (mechanic w)));
               ("startTime", JStr (wall_clock h ts));
               ("endTime", JStr (wall_clock h te)) ])
     = payload_text (customer w) (vehicle w)
         (JSONText.number (Number_toString h) (Number h (mechanic w)))
         (wall_clock h ts) (wall_clock h te)
  /\ naive_local_form (wall_clock h ts) = true
  /\ naive_local_form (wall_clock h te) = true
  /\ (LocalTime h ts = 1704117600000 -> wall_clock h ts = "2024-01-01T14:00:00").
Proof.
  intros Hv Hs He Hys Hye.
  assert (Hst : toLocalISO h (start w) = Normal (wall_clock h ts))
    by (rewrite Hs; apply toLocalISO_wall_clock; exact Hys).
  assert (Hen : toLocalISO h (end_ w) = Normal (wall_clock h te))
    by (rewrite He; apply toLocalISO_wall_clock; exact Hye).
  split; [|split; [|split; [|split]]].
  - unfold exec. rewrite (book_run h w _ _ Hv Hst Hen). cbn [snd].
    rewrite <- post_request. apply submitted_requests.
  - apply stringify_payload.
  - unfold wall_clock. apply naive_local_has_form.
  - unfold wall_clock. apply naive_local_has_form.
  - intros Hl. unfold wall_clock, getFullYear, getMonth, getDate, getHours,
      getMinutes, getSeconds. rewrite Hl. vm_compute. reflexivity.
Qed.

Lemma book_posts_naive_local_witness :
  exists rest,
    requests (exec (book (Demo.host 480 Demo.new_year_2024 Demo.accepts))
                   (Demo.form "7" (Demo.at_ 1704146400000)
                              (Demo.at_ 1704150000000)))
    = mkRequest POST API [("Content-Type", "application/json")]
        (Some (payload_text "Ann Lee" "KA01AB1234" "7"
                            "2024-01-01T14:00:00" "2024-01-01T15:00:00"))
      :: rest
    /\ filter is_POST rest = [].
Proof.
  destruct (book_posts_naive_local
              (Demo.host 480 Demo.new_year_2024 Demo.accepts)
              (Demo.form "7" (Demo.at_ 1704146400000) (Demo.at_ 1704150000000))
              1704146400000 1704150000000)
    as ((rest & Hr & Hf) & _); try reflexivity; try (split; discriminate).
  exists rest. split; [|exact Hf]. rewrite Hr. vm_compute. reflexivity.
Defined.

(** C1 as stated fails: in a host on UTC, with the clock at the start of
    2024, the draft from 10000-01-01 14:00 to 15:00 passes the three
    validations and is posted, with the [startTime]
    ["+010000-01-01T14:00"], which has not the shape
    [YYYY-MM-DDTHH:MM:SS]. *)
Lemma book_year_10000_not_naive_local :
  passes_validation (Demo.host 0 Demo.new_year_2024 Demo.accepts)
    (Demo.form "7" (Demo.at_ (Demo.new_year_10000 + 50400000))
               (Demo.at_ (Demo.new_year_10000 + 54000000))) = true
  /\ requests (exec (book (Demo.host 0 Demo.new_year_2024 Demo.accepts))
                    (Demo.form "7" (Demo.at_ (Demo.new_year_10000 + 50400000))
                               (Demo.at_ (Demo.new_year_10000 + 54000000))))
     = [mkRequest POST API [("Content-Type", "application/json")]
          (Some (payload_text "Ann Lee" "KA01AB1234" "7"
                              "+010000-01-01T14:00" "+010000-01-01T15:00"));
        mkRequest GET API [] None]
  /\ ~ (exists s,
          toLocalISO (Demo.host 0 Demo.new_year_2024 Demo.accepts)
                     (Demo.at_ (Demo.new_year_10000 + 50400000)) = Normal s
          /\ naive_local_form s = true).
Proof.
  split; [reflexivity|]. split; [vm_compute; reflexivity|].
  intros (s & Hs & Hf).
  assert (E : toLocalISO (Demo.host 0 Demo.new_year_2024 Demo.accepts)
                (Demo.at_ (Demo.new_year_10000 + 50400000))
              = Normal "+010000-01-01T14:00") by reflexivity.
  rewrite E in Hs. injection Hs as <-. discriminate Hf.
Qed.

(** The grammar of numeric strings on some texts a user may type. *)
Example parses_as_number_examples :
  map parses_as_number
      ["7"; " 12 "; "1e5"; "0x1F"; "1."; ".5"; "+.5e-3"; "-Infinity"; " ";
       "abc"; "12px"; "1,5"; "0x"; "-0x1"; "."; "1e"; "infinity"; "1 2"]
  = [true; true; true; true; true; true; true; true; true;
     false; false; false; false; false; false; false; false; false].
Proof. reflexivity. Qed.

Lemma not_a_number_is_filled (s : string) :
  parses_as_number s = false -> s <> EmptyString.
Proof.
  intros H ->. discriminate H.
Qed.

Lemma Number_NaN (h : Host) (s : string) :
  parses_as_number s = false -> Number h s = NaN.
Proof.
  unfold parses_as_number, Number. intros H.
  apply orb_false_iff in H. destruct H as [H1 H2].
  rewrite H1, H2. reflexivity.
Qed.

(** C10.  [book] does not check that the mechanic field is numeric.  For
    a draft with customer and vehicle filled, a mechanic text outside the
    grammar of numeric strings (so not empty), and valid dates with the
    start not before the clock and the end after the start, the three
    validations pass; [Number(mechanic)] is [NaN], and the one POST that
    goes out (collection address, JSON content type) has as body the JSON
    text of the payload with [null] for [mechanicId].  ["abc"] is such a
    text. *)
Theorem book_sends_NaN_mechanic (h : Host) (w : World) (ts te : Z)
    (st en : string) :
  customer w <> EmptyString -> vehicle w <> EmptyString ->
  parses_as_number (mechanic w) = false ->
  start w = Some (mkDate (Some ts)) -> end_ w = Some (mkDate (Some te)) ->
  clock h <= ts -> ts < te ->
  toLocalISO h (start w) = Normal st ->
  toLocalISO h (end_ w) = Normal en ->
  passes_validation h w = true
  /\ Number h (mechanic w) = NaN
  /\ (exists rest,
        requests (exec (book h) w)
        = (requests w
           ++ mkRequest POST API [("Content-Type", "application/json")]
                (Some (payload_text (customer w) (vehicle w) "null" st en))
              :: rest)%list
        /\ filter is_POST rest = [])
  /\ JSON_stringify h
       (JObj [ ("customerName", JStr (customer w));
               ("vehicleReg", JStr (vehicle w));
               ("mechanicId", JNum (Number h (mechanic w)));
               ("startTime", JStr st); ("endTime", JStr en) ])
     = "{" ++ JSONText.quoted "customerName" ++ ":" ++ JSONText.quoted (customer w)
       ++ "," ++ JSONText.quoted "vehicleReg" ++ ":" ++ JSONText.quoted (vehicle w)
       ++ "," ++ JSONText.quoted "mechanicId" ++ ":" ++ "null"
       ++ "," ++ JSONText.quoted "startTime" ++ ":" ++ JSONText.quoted st
       ++ "," ++ JSONText.quoted "endTime" ++ ":" ++ JSONText.quoted en ++ "}"
  /\ parses_as_number "abc" = false.
Proof.
  intros Hc Hv Hm Hs He Hnow Hlt Hst Hen.
  assert (Hpass : passes_validation h w = true).
  { unfold passes_validation.
    rewrite (all_filled w _ _ Hc Hv (not_a_number_is_filled _ Hm) Hs He).
    rewrite Hs, He. unfold JSDate.lt, JSDate.le, date_number. cbn [time_value negb andb].
    destruct (Z.ltb_spec ts (clock h)); [lia|].
    destruct (Z.leb_spec te ts); [lia|]. reflexivity. }
  assert (Htext : JSON_stringify h
                    (JObj [ ("customerName", JStr (customer w));
                            ("vehicleReg", JStr (vehicle w));
                            ("mechanicId", JNum (Number h (mechanic w)));
                            ("startTime", JStr st); ("endTime", JStr en) ])
                  = payload_text (customer w) (vehicle w) "null" st en).
  { rewrite stringify_payload, (Number_NaN h _ Hm). reflexivity. }
  split; [exact Hpass|]. split; [apply Number_NaN; exact Hm|].
  split; [|split; [|reflexivity]].
  - unfold exec. rewrite (book_run h w st en Hpass Hst Hen). cbn [snd].
    rewrite <- Htext, <- post_request. apply submitted_requests.
  - rewrite Htext. reflexivity.
Qed.

Lemma book_sends_NaN_mechanic_witness :
  Number (Demo.host 0 Demo.new_year_2024 Demo.accepts) "abc" = NaN
  /\ exists rest,
       requests (exec (book (Demo.host 0 Demo.new_year_2024 Demo.accepts))
                      (Demo.form "abc" (Demo.at_ (Demo.new_year_2024 + 3600000))
                                 (Demo.at_ (Demo.new_year_2024 + 7200000))))
       = mkRequest POST API [("Content-Type", "application/json")]
           (Some (payload_text "Ann Lee" "KA01AB1234" "null"
                               "2024-01-01T01:00:00" "2024-01-01T02:00:00"))
         :: rest
       /\ filter is_POST rest = [].
Proof.
  destruct (book_sends_NaN_mechanic
              (Demo.host 0 Demo.new_year_2024 Demo.accepts)
              (Demo.form "abc" (Demo.at_ (Demo.new_year_2024 + 3600000))
                         (Demo.at_ (Demo.new_year_2024 + 7200000)))
              (Demo.new_year_2024 + 3600000) (Demo.new_year_2024 + 7200000)
              "2024-01-01T01:00:00" "2024-01-01T02:00:00")
    as (_ & Hnan & Hreq & _); try reflexivity; try discriminate.
  split; [exact Hnan | exact Hreq].
Defined.


(* ===================================================================== *)
(** * book: every path *)
(* ===================================================================== *)

Lemma book_throws_end (h : Host) (w : World) (st : string) (e : Exn) :
  passes_validation h w = true ->
  toLocalISO h (start w) = Normal st ->
  toLocalISO h (end_ w) = Throw e ->
  book h w = (Throw e, w).
Proof.
  intros Hv Hs He.
  destruct (passes_validation_inv h w Hv) as (H1 & H2 & H3).
  unfold book. rewrite H1.
  unfold bind, new_Date, ret. rewrite H2, H3.
  unfold lift. rewrite Hs, He. reflexivity.
Qed.

Lemma book_cases (h : Host) (w : World) : BookRun h w (book h w).
Proof.
  destruct (passes_validation h w) eqn:Hv.
  - destruct (toLocalISO h (start w)) as [st|e] eqn:Hs.
    + destruct (toLocalISO h (end_ w)) as [en|e] eqn:He.
      * rewrite (book_run h w st en Hv Hs He). now apply Submitted.
      * rewrite (book_throws_end h w st e Hv Hs He). now apply (ThrewAtEnd h w st).
    + rewrite (book_throws h w e Hv Hs). now apply ThrewAtStart.
  - destruct (book_rejected h w Hv) as [msg ->]. now apply Rejected.
Qed.

Lemma submitted_toast (h : Host) (w : World) (p : JSON) :
  exists t, toasts (submitted h w p) = (toasts w ++ [t])%list.
Proof.
  unfold submitted.
  destruct (network h (post h p)) as [e|code txt].
  - eexists. reflexivity.
  - destruct (ok (mkResponse code txt)).
    + match goal with
      | |- context [loaded h ?w0] => destruct (loaded_frame h w0) as (_ & Ht & _)
      end.
      rewrite Ht. eexists. reflexivity.
    + eexists. reflexivity.
Qed.

Lemma app_cons_neq {A} (l r : list A) (x : A) : (l ++ x :: r)%list <> l.
Proof.
  intros H. apply (f_equal (@List.length A)) in H.
  rewrite length_app in H. cbn [List.length] in H. lia.
Qed.

(** X1.  When the POST of [book] fails on the network, the error is
    logged, the one toast is the generic ["Error booking appointment"],
    the POST is the only request, and the draft and the list stay as they
    were. *)
Theorem book_network_failure (h : Host) (w : World) (st en : string) (e : Exn) :
  passes_validation h w = true ->
  toLocalISO h (start w) = Normal st ->
  toLocalISO h (end_ w) = Normal en ->
  network h (post h (payload (customer w) (vehicle w) (Number h (mechanic w)) st en))
  = Failed e ->
  completion (book h) w = Normal tt
  /\ toasts (exec (book h) w)
     = (toasts w ++ [ToastError "Error booking appointment"])%list
  /\ console (exec (book h) w) = (console w ++ [e])%list
  /\ requests (exec (book h) w)
     = (requests w
        ++ [post h (payload (customer w) (vehicle w) (Number h (mechanic w)) st en)])%list
  /\ draft (exec (book h) w) = draft w
  /\ appointments (exec (book h) w) = appointments w.
Proof.
  intros Hv Hs He Hn. unfold completion, exec.
  rewrite (book_run h w st en Hv Hs He). cbn [fst snd].
  unfold submitted. rewrite Hn. repeat split.
Qed.

Lemma book_network_failure_witness :
  toasts (exec (book (Demo.host 0 Demo.new_year_2024
                        (fun _ => Failed (TypeError "Failed to fetch"))))
               (Demo.form "7" (Demo.at_ (Demo.new_year_2024 + 3600000))
                          (Demo.at_ (Demo.new_year_2024 + 7200000))))
  = [ToastError "Error booking appointment"].
Proof.
  apply (book_network_failure
           (Demo.host 0 Demo.new_year_2024
              (fun _ => Failed (TypeError "Failed to fetch")))
           (Demo.form "7" (Demo.at_ (Demo.new_year_2024 + 3600000))
                      (Demo.at_ (Demo.new_year_2024 + 7200000)))
           "2024-01-01T01:00:00" "2024-01-01T02:00:00"
           (TypeError "Failed to fetch"));
    reflexivity.
Defined.

(** X2.  [book] throws exactly when the draft passes the three
    validations and [toLocalISO] throws on the start, or returns on the
    start and throws on the end; the world is then as it was: no toast,
    no request, no log. *)
Theorem book_throws_iff (h : Host) (w : World) (e : Exn) :
  (completion (book h) w = Throw e <->
   passes_validation h w = true
   /\ (toLocalISO h (start w) = Throw e
       \/ ((exists st, toLocalISO h (start w) = Normal st)
           /\ toLocalISO h (end_ w) = Throw e)))
  /\ (completion (book h) w = Throw e -> exec (book h) w = w).
Proof.
  unfold completion, exec. split; [split|].
  - intros H. destruct (book_cases h w) as [msg Hv|e' Hv Hs|st e' Hv Hs He|st en Hv Hs He];
      cbn [fst] in H; try discriminate; injection H as ->.
    + split; [exact Hv | left; exact Hs].
    + split; [exact Hv | right; split; [now exists st | exact He]].
  - intros (Hv & [Hs | ((st & Hs) & He)]).
    + now rewrite (book_throws h w e Hv Hs).
    + now rewrite (book_throws_end h w st e Hv Hs He).
  - intros H. destruct (book_cases h w) as [msg Hv|e' Hv Hs|st e' Hv Hs He|st en Hv Hs He];
      cbn [fst] in H; try discriminate; reflexivity.
Qed.

Lemma book_throws_iff_witness :
  exec (book (Demo.host 0 Demo.new_year_2024 Demo.accepts))
       (Demo.form "7" (Demo.at_ (Demo.new_year_2024 + 3600000)) (Some (mkDate None)))
  = Demo.form "7" (Demo.at_ (Demo.new_year_2024 + 3600000)) (Some (mkDate None)).
Proof.
  apply (proj2 (book_throws_iff (Demo.host 0 Demo.new_year_2024 Demo.accepts)
                  (Demo.form "7" (Demo.at_ (Demo.new_year_2024 + 3600000))
                             (Some (mkDate None)))
                  (RangeError "Invalid time value"))).
  reflexivity.
Defined.

(** X3.  Every run of [book] that returns has shown exactly one toast. *)
Theorem book_shows_one_toast (h : Host) (w : World) :
  completion (book h) w = Normal tt ->
  exists t, toasts (exec (book h) w) = (toasts w ++ [t])%list.
Proof.
  unfold completion, exec. intros H.
  destruct (book_cases h w) as [msg Hv|e' Hv Hs|st e' Hv Hs He|st en Hv Hs He];
    cbn [fst snd] in *; try discriminate.
  - eexists. reflexivity.
  - apply submitted_toast.
Qed.

Lemma book_shows_one_toast_witness :
  exists t,
    toasts (exec (book (Demo.host 0 Demo.new_year_2024 Demo.accepts))
                 (Demo.form "7" (Demo.at_ (Demo.new_year_2024 + 3600000))
                            (Demo.at_ (Demo.new_year_2024 + 7200000))))
    = [t].
Proof.
  apply (book_shows_one_toast (Demo.host 0 Demo.new_year_2024 Demo.accepts)
           (Demo.form "7" (Demo.at_ (Demo.new_year_2024 + 3600000))
                      (Demo.at_ (Demo.new_year_2024 + 7200000)))).
  reflexivity.
Defined.

(** X4.  [book] leaves the request log as it was exactly when the draft
    fails a validation or one of its dates does not serialize: a POST goes
    out if and only if the three validations pass and [toLocalISO] returns
    on both dates. *)
Theorem book_sends_iff (h : Host) (w : World) :
  requests (exec (book h) w) <> requests w <->
  passes_validation h w = true
  /\ (exists st, toLocalISO h (start w) = Normal st)
  /\ (exists en, toLocalISO h (end_ w) = Normal en).
Proof.
  unfold exec.
  destruct (book_cases h w) as [msg Hv|e' Hv Hs|st e' Hv Hs He|st en Hv Hs He];
    cbn [snd].
  - split; [intros H; now contradiction H|].
    intros (Hv' & _). congruence.
  - split; [intros H; now contradiction H|].
    intros (_ & (st & Hst) & _). congruence.
  - split; [intros H; now contradiction H|].
    intros (_ & _ & (en & Hen)). congruence.
  - split.
    + intros _. split; [exact Hv|]. split; [now exists st | now exists en].
    + intros _. destruct (submitted_requests h w
        (payload (customer w) (vehicle w) (Number h (mechanic w)) st en))
        as (rest & -> & _).
      apply app_cons_neq.
Qed.

Lemma book_sends_iff_witness :
  requests (exec (book (Demo.host 0 Demo.new_year_2024 Demo.accepts))
                 (Demo.form "7" (Demo.at_ (Demo.new_year_2024 + 3600000))
                            (Demo.at_ (Demo.new_year_2024 + 7200000))))
  <> [].
Proof.
  apply (proj2 (book_sends_iff (Demo.host 0 Demo.new_year_2024 Demo.accepts)
                  (Demo.form "7" (Demo.at_ (Demo.new_year_2024 + 3600000))
                             (Demo.at_ (Demo.new_year_2024 + 7200000))))).
  split; [reflexivity|].
  split; [exists "2024-01-01T01:00:00" | exists "2024-01-01T02:00:00"]; reflexivity.
Defined.

Lemma submitted_keeps_state (h : Host) (w : World) (p : JSON) :
  (forall code txt, network h (post h p) = Responded code txt ->
                    code < 200 \/ 299 < code) ->
  draft (submitted h w p) = draft w
  /\ appointments (submitted h w p) = appointments w.
Proof.
  intros Hno. unfold submitted.
  destruct (network h (post h p)) as [e|code txt] eqn:Hn; [split; reflexivity|].
  destruct (ok (mkResponse code txt)) eqn:Hok; [|split; reflexivity].
  apply ok_iff in Hok. specialize (Hno code txt eq_refl). lia.
Qed.

(** X5.  The draft and the appointment list change only on the success
    path: against a server that answers no POST with a status from 200 to
    299, every run of [book] (rejected, thrown, failed or refused) leaves
    the five fields and the list as they were. *)
Theorem book_keeps_state_unless_success (h : Host) (w : World) :
  (forall p code txt, network h (post h p) = Responded code txt ->
                      code < 200 \/ 299 < code) ->
  draft (exec (book h) w) = draft w
  /\ appointments (exec (book h) w) = appointments w.
Proof.
  intros Hno. unfold exec.
  destruct (book_cases h w) as [msg Hv|e' Hv Hs|st e' Hv Hs He|st en Hv Hs He];
    cbn [snd]; try (split; reflexivity).
  apply submitted_keeps_state. intros code txt. apply Hno.
Qed.

Lemma book_keeps_state_unless_success_witness :
  draft (exec (book (Demo.host 0 Demo.new_year_2024 (fun _ => Responded 500 "down")))
              (Demo.form "7" (Demo.at_ (Demo.new_year_2024 + 3600000))
                         (Demo.at_ (Demo.new_year_2024 + 7200000))))
  = draft (Demo.form "7" (Demo.at_ (Demo.new_year_2024 + 3600000))
                     (Demo.at_ (Demo.new_year_2024 + 7200000))).
Proof.
  apply (book_keeps_state_unless_success
           (Demo.host 0 Demo.new_year_2024 (fun _ => Responded 500 "down"))
           (Demo.form "7" (Demo.at_ (Demo.new_year_2024 + 3600000))
                      (Demo.at_ (Demo.new_year_2024 + 7200000)))).
  intros p code txt H. injection H as <- _. right. reflexivity.
Defined.

(** X6.  A second click after a successful booking books nothing: run
    again on the world the success path leaves, [book] sends no request
    and shows ["Please fill all fields"]. *)
Theorem book_again_after_success (h : Host) (w : World)
    (st en : string) (code : Z) (txt : string) :
  passes_validation h w = true ->
  toLocalISO h (start w) = Normal st ->
  toLocalISO h (end_ w) = Normal en ->
  network h (post h (payload (customer w) (vehicle w) (Number h (mechanic w)) st en))
  = Responded code txt ->
  200 <= code <= 299 ->
  requests (exec (book h) (exec (book h) w)) = requests (exec (book h) w)
  /\ toasts (exec (book h) (exec (book h) w))
     = (toasts w ++ [ToastSuccess "Appointment booked";
                     ToastError "Please fill all fields"])%list.
Proof.
  intros Hv Hs He Hn Hc.
  assert (Hd : draft (exec (book h) w)
               = (EmptyString, EmptyString, EmptyString, None, None)
               /\ toasts (exec (book h) w)
                  = (toasts w ++ [ToastSuccess "Appointment booked"])%list).
  { unfold exec. rewrite (book_run h w st en Hv Hs He). cbn [snd].
    unfold submitted. rewrite Hn, (proj2 (ok_iff code txt) Hc).
    match goal with
    | |- context [loaded h ?w0] => destruct (loaded_frame h w0) as (_ & Ht & Hd)
    end.
    rewrite Ht, Hd. split; reflexivity. }
  destruct Hd as [Hd Ht]. unfold draft in Hd. injection Hd as Hc1 _ _ _ _.
  set (w1 := exec (book h) w) in *.
  unfold exec. rewrite book_missing by (rewrite Hc1; reflexivity).
  cbn [snd requests toasts with_toast]. rewrite Ht, <- app_assoc.
  split; reflexivity.
Qed.

Lemma book_again_after_success_witness :
  toasts (exec (book (Demo.host 0 Demo.new_year_2024 Demo.accepts))
            (exec (book (Demo.host 0 Demo.new_year_2024 Demo.accepts))
               (Demo.form "7" (Demo.at_ (Demo.new_year_2024 + 3600000))
                          (Demo.at_ (Demo.new_year_2024 + 7200000)))))
  = [ToastSuccess "Appointment booked"; ToastError "Please fill all fields"].
Proof.
  apply (book_again_after_success
           (Demo.host 0 Demo.new_year_2024 Demo.accepts)
           (Demo.form "7" (Demo.at_ (Demo.new_year_2024 + 3600000))
                      (Demo.at_ (Demo.new_year_2024 + 7200000)))
           "2024-01-01T01:00:00" "2024-01-01T02:00:00" 201 "{}");
    try reflexivity.
  split; discriminate.
Defined.

(** X7.  After a refusal the draft can be sent again as it is.  When the
    POST is answered with a status outside 200 to 299, and [book] runs
    again later in the same browser, at a clock reading [now] for which
    the draft still passes the validations and whatever the network then
    answers, the same POST goes out once more, before anything else. *)
Theorem book_again_after_refusal (h : Host) (w : World)
    (st en : string) (code : Z) (txt : string)
    (now : Z) (net : Request -> FetchOutcome) :
  passes_validation h w = true ->
  toLocalISO h (start w) = Normal st ->
  toLocalISO h (end_ w) = Normal en ->
  network h (mkRequest POST API [("Content-Type", "application/json")]
               (Some (JSON_stringify h
                        (JObj [ ("customerName", JStr (customer w));
                                ("vehicleReg", JStr (vehicle w));
                                ("mechanicId", JNum (Number h (mechanic w)));
                                ("startTime", JStr st); ("endTime", JStr en) ]))))
  = Responded code txt ->
  code < 200 \/ 299 < code ->
  passes_validation (later h now net) w = true ->
  exists rest,
    requests (exec (book (later h now net)) (exec (book h) w))
    = (requests w
       ++ mkRequest POST API [("Content-Type", "application/json")]
            (Some (JSON_stringify h
                     (JObj [ ("customerName", JStr (customer w));
                             ("vehicleReg", JStr (vehicle w));
                             ("mechanicId", JNum (Number h (mechanic w)));
                             ("startTime", JStr st); ("endTime", JStr en) ])))
          :: mkRequest POST API [("Content-Type", "application/json")]
               (Some (JSON_stringify h
                        (JObj [ ("customerName", JStr (customer w));
                                ("vehicleReg", JStr (vehicle w));
                                ("mechanicId", JNum (Number h (mechanic w)));
                                ("startTime", JStr st); ("endTime", JStr en) ])))
          :: rest)%list
    /\ filter is_POST rest = [].
Proof.
  intros Hv Hs He Hn Hc Hv2.
  rewrite <- post_request in *.
  set (P := post h (payload (customer w) (vehicle w) (Number h (mechanic w)) st en))
    in *.
  assert (Hok : ok (mkResponse code txt) = false).
  { destruct (ok (mkResponse code txt)) eqn:E; [|reflexivity].
    apply ok_iff in E. lia. }
  assert (H1 : exec (book h) w
               = with_toast (ToastError (if JSString.truthy txt then txt
                                         else "Error booking appointment"))
                   (with_request P w)).
  { unfold exec. rewrite (book_run h w st en Hv Hs He). cbn [snd].
    unfold submitted. fold P. now rewrite Hn, Hok. }
  rewrite H1. unfold exec.
  rewrite (book_run (later h now net) _ st en); [| exact Hv2 | exact Hs | exact He ].
  cbn [snd].
  match goal with
  | |- context [submitted ?h2 ?w1 ?p] =>
      destruct (submitted_requests h2 w1 p) as (rest & Hr & Hf)
  end.
  exists rest. split; [|exact Hf]. rewrite Hr.
  cbn [requests with_toast with_request]. rewrite <- app_assoc. reflexivity.
Qed.

Lemma book_again_after_refusal_witness :
  List.length
    (filter is_POST
       (requests
          (exec (book (later (Demo.host 0 Demo.new_year_2024
                                (fun _ => Responded 409 "busy"))
                             (Demo.new_year_2024 + 60000) Demo.accepts))
             (exec (book (Demo.host 0 Demo.new_year_2024
                            (fun _ => Responded 409 "busy")))
                (Demo.form "7" (Demo.at_ (Demo.new_year_2024 + 3600000))
                           (Demo.at_ (Demo.new_year_2024 + 7200000)))))))
  = 2%nat.
Proof.
  destruct (book_again_after_refusal
              (Demo.host 0 Demo.new_year_2024 (fun _ => Responded 409 "busy"))
              (Demo.form "7" (Demo.at_ (Demo.new_year_2024 + 3600000))
                         (Demo.at_ (Demo.new_year_2024 + 7200000)))
              "2024-01-01T01:00:00" "2024-01-01T02:00:00" 409 "busy"
              (Demo.new_year_2024 + 60000) Demo.accepts)
    as (rest & Hr & Hf);
    [ reflexivity | reflexivity | reflexivity | reflexivity
    | right; reflexivity | reflexivity | ].
  rewrite Hr. cbn [requests Demo.form app filter is_POST method].
  rewrite Hf. reflexivity.
Defined.

(* ===================================================================== *)
(** * load, mount, reset *)
(* ===================================================================== *)

(** X8.  [load] never throws, whatever the network and the parser do; on
    every run it sends exactly one request, the GET of the collection
    with no body, shows no toast and leaves the five fields of the draft
    alone; the list it leaves is the old one or the parsed body.  The
    mount effect does what [load] does. *)
Theorem load_frame (h : Host) (w : World) :
  completion (load h) w = Normal tt
  /\ requests (exec (load h) w) = (requests w ++ [mkRequest GET API [] None])%list
  /\ toasts (exec (load h) w) = toasts w
  /\ draft (exec (load h) w) = draft w
  /\ (appointments (exec (load h) w) = appointments w
      \/ exists st txt, network h (mkRequest GET API [] None) = Responded st txt
                        /\ JSON_parse h txt = Some (appointments (exec (load h) w)))
  /\ exec (mount h) w = exec (load h) w.
Proof.
  unfold completion, exec, mount, detached. rewrite load_run. cbn [fst snd].
  destruct (loaded_frame h w) as (Hr & Ht & Hd).
  repeat split; try assumption.
  unfold loaded. fold get_appointments.
  destruct (network h get_appointments) as [e|st txt]; [left; reflexivity|].
  destruct (JSON_parse h txt) as [v|] eqn:Hp; [|left; reflexivity].
  right. exists st, txt. split; [reflexivity | exact Hp].
Qed.

Lemma reset_run (w : World) : reset w = (Normal tt, cleared w).
Proof. reflexivity. Qed.

(** X9.  The Reset button empties the five fields and touches nothing
    else; pressing Book right after it sends no request and only asks for
    the fields. *)
Theorem reset_then_book (h : Host) (w : World) :
  draft (exec reset w) = (EmptyString, EmptyString, EmptyString, None, None)
  /\ appointments (exec reset w) = appointments w
  /\ toasts (exec reset w) = toasts w
  /\ requests (exec reset w) = requests w
  /\ requests (exec (book h) (exec reset w)) = requests w
  /\ toasts (exec (book h) (exec reset w))
     = (toasts w ++ [ToastError "Please fill all fields"])%list.
Proof.
  unfold exec. rewrite reset_run. cbn [snd].
  rewrite book_missing by reflexivity. repeat split.
Qed.

(* ===================================================================== *)
(** * cancelAppointment *)
(* ===================================================================== *)

Lemma cancel_declined (h : Host) (confirm : string -> bool) (id : option JSON)
    (w : World) :
  confirm "Cancel this appointment?" = false ->
  cancelAppointment h confirm id w = (Normal tt, w).
Proof.
  intros H. unfold cancelAppointment. rewrite H. reflexivity.
Qed.

Lemma cancel_run (h : Host) (confirm : string -> bool) (id : option JSON)
    (w : World) :
  confirm "Cancel this appointment?" = true ->
  cancelAppointment h confirm id w = (Normal tt, cancelled h id w).
Proof.
  intros H. unfold cancelAppointment. rewrite H. cbn [negb].
  unfold cancelled, try_catch, bind, fetch, res_text, ret.
  destruct (network h (delete_request h id)) as [e|code txt]; [reflexivity|].
  cbn [text status]. destruct (ok (mkResponse code txt)); [|reflexivity].
  unfold toast_success, detached, modify. rewrite load_run. reflexivity.
Qed.

(** X10.  [cancelAppointment] never throws and never touches the draft.
    When the user declines the confirmation the world stays as it was: no
    request, no toast.  When the user confirms, the first request is the
    DELETE of [API/id], without body, and the only request that may follow
    is the GET of [load]. *)
Theorem cancel_frame (h : Host) (confirm : string -> bool) (id : option JSON)
    (w : World) :
  completion (cancelAppointment h confirm id) w = Normal tt
  /\ draft (exec (cancelAppointment h confirm id) w) = draft w
  /\ (confirm "Cancel this appointment?" = false ->
      exec (cancelAppointment h confirm id) w = w)
  /\ (confirm "Cancel this appointment?" = true ->
      exists rest,
        requests (exec (cancelAppointment h confirm id) w)
        = (requests w
           ++ mkRequest DELETE (API ++ "/" ++ template h id) [] None :: rest)%list
        /\ (rest = [] \/ rest = [mkRequest GET API [] None])).
Proof.
  unfold completion, exec.
  destruct (confirm "Cancel this appointment?") eqn:Hc.
  - rewrite (cancel_run h confirm id w Hc). cbn [fst snd].
    split; [reflexivity|].
    assert (H : draft (cancelled h id w) = draft w
                /\ exists rest,
                     requests (cancelled h id w)
                     = (requests w ++ delete_request h id :: rest)%list
                     /\ (rest = [] \/ rest = [get_appointments])).
    { unfold cancelled.
      destruct (network h (delete_request h id)) as [e|code txt].
      - split; [reflexivity|]. exists []. split; [reflexivity | now left].
      - destruct (ok (mkResponse code txt)).
        + match goal with
          | |- context [loaded h ?w0] => destruct (loaded_frame h w0) as (Hr & _ & Hd)
          end.
          rewrite Hr, Hd. split; [reflexivity|].
          exists [get_appointments]. split; [|now right].
          cbn [requests with_toast with_request]. now rewrite <- app_assoc.
        + split; [reflexivity|]. exists []. split; [reflexivity | now left]. }
    destruct H as [Hd Hr]. split; [exact Hd|].
    split; [discriminate|]. intros _. exact Hr.
  - rewrite (cancel_declined h confirm id w Hc). cbn [fst snd].
    repeat split. discriminate.
Qed.

Lemma cancel_frame_witness :
  exec (cancelAppointment (Demo.host 0 0 Demo.accepts) (fun _ => false)
                          (Some (JStr "42")))
       Demo.listed
  = Demo.listed.
Proof.
  apply (cancel_frame (Demo.host 0 0 Demo.accepts) (fun _ => false)
                      (Some (JStr "42")) Demo.listed).
  reflexivity.
Defined.

(** X11.  When the user confirms and the DELETE is answered with a status
    from 200 to 299, the one toast is ["Appointment cancelled"], the list
    is not edited in place but fetched again: the requests are the DELETE
    then the GET, and the list is the one [load] leaves. *)
Theorem cancel_success_refetches (h : Host) (confirm : string -> bool)
    (id : option JSON) (w : World) (code : Z) (txt : string) :
  confirm "Cancel this appointment?" = true ->
  network h (delete_request h id) = Responded code txt ->
  200 <= code <= 299 ->
  toasts (exec (cancelAppointment h confirm id) w)
  = (toasts w ++ [ToastSuccess "Appointment cancelled"])%list
  /\ requests (exec (cancelAppointment h confirm id) w)
     = (requests w ++ [delete_request h id; get_appointments])%list
  /\ appointments (exec (cancelAppointment h confirm id) w)
     = appointments (exec (load h) w).
Proof.
  intros Hc Hn Hcode. unfold exec.
  rewrite (cancel_run h confirm id w Hc), load_run. cbn [snd].
  unfold cancelled. rewrite Hn, (proj2 (ok_iff code txt) Hcode).
  match goal with
  | |- context [loaded h ?w0] => destruct (loaded_frame h w0) as (Hr & Ht & _)
  end.
  rewrite Hr, Ht. split; [reflexivity|]. split.
  - cbn [requests with_toast with_request]. now rewrite <- app_assoc.
  - unfold loaded.
    destruct (network h get_appointments) as [e|st body]; [reflexivity|].
    destruct (JSON_parse h body); reflexivity.
Qed.

Lemma cancel_success_refetches_witness :
  requests (exec (cancelAppointment (Demo.host 0 0 Demo.accepts) (fun _ => true)
                                    (Some (JStr "42")))
                 Demo.listed)
  = [delete_request (Demo.host 0 0 Demo.accepts) (Some (JStr "42"));
     get_appointments].
Proof.
  apply (cancel_success_refetches (Demo.host 0 0 Demo.accepts) (fun _ => true)
           (Some (JStr "42")) Demo.listed 200 "[]");
    try reflexivity.
  split; discriminate.
Defined.

(** X12.  When the user confirms and the DELETE is answered with a status
    outside 200 to 299, the one toast is ["Failed to cancel: "] followed
    by the body text, or by the status code in decimal when the body is
    empty; no GET follows and the appointment stays in the list. *)
Theorem cancel_refused (h : Host) (confirm : string -> bool)
    (id : option JSON) (w : World) (code : Z) (txt : string) :
  confirm "Cancel this appointment?" = true ->
  network h (delete_request h id) = Responded code txt ->
  code < 200 \/ 299 < code ->
  (txt <> EmptyString ->
   toasts (exec (cancelAppointment h confirm id) w)
   = (toasts w ++ [ToastError ("Failed to cancel: " ++ txt)])%list)
  /\ (txt = EmptyString ->
      toasts (exec (cancelAppointment h confirm id) w)
      = (toasts w ++ [ToastError ("Failed to cancel: " ++ integer_toString code)])%list)
  /\ requests (exec (cancelAppointment h confirm id) w)
     = (requests w ++ [delete_request h id])%list
  /\ appointments (exec (cancelAppointment h confirm id) w) = appointments w.
Proof.
  intros Hc Hn Hcode. unfold exec.
  rewrite (cancel_run h confirm id w Hc). cbn [snd].
  unfold cancelled. rewrite Hn.
  assert (Hok : ok (mkResponse code txt) = false).
  { destruct (ok (mkResponse code txt)) eqn:E; [|reflexivity].
    apply ok_iff in E. lia. }
  rewrite Hok. repeat split.
  - intros Hne. apply truthy_true_iff in Hne.
    cbn [toasts with_toast with_request]. now rewrite Hne.
  - intros ->. reflexivity.
Qed.

Lemma cancel_refused_witness :
  toasts (exec (cancelAppointment
                  (Demo.host 0 0 (fun _ => Responded 404 EmptyString))
                  (fun _ => true) (Some (JStr "42")))
               Demo.listed)
  = [ToastError "Failed to cancel: 404"].
Proof.
  apply (cancel_refused (Demo.host 0 0 (fun _ => Responded 404 EmptyString))
           (fun _ => true) (Some (JStr "42")) Demo.listed 404 EmptyString);
    try reflexivity.
  right. reflexivity.
Defined.

(** X13.  When the user confirms and the DELETE fails on the network,
    the error is logged and the one toast is ["Failed to cancel: "]
    followed by the message of the error; the list stays as it was. *)
Theorem cancel_network_failure (h : Host) (confirm : string -> bool)
    (id : option JSON) (w : World) (e : Exn) :
  confirm "Cancel this appointment?" = true ->
  network h (delete_request h id) = Failed e ->
  toasts (exec (cancelAppointment h confirm id) w)
  = (toasts w ++ [ToastError ("Failed to cancel: " ++ message e)])%list
  /\ console (exec (cancelAppointment h confirm id) w) = (console w ++ [e])%list
  /\ requests (exec (cancelAppointment h confirm id) w)
     = (requests w ++ [delete_request h id])%list
  /\ appointments (exec (cancelAppointment h confirm id) w) = appointments w.
Proof.
  intros Hc Hn. unfold exec.
  rewrite (cancel_run h confirm id w Hc). cbn [snd].
  unfold cancelled. rewrite Hn. repeat split.
Qed.

Lemma cancel_network_failure_witness :
  toasts (exec (cancelAppointment
                  (Demo.host 0 0 (fun _ => Failed (TypeError "Failed to fetch")))
                  (fun _ => true) None)
               Demo.listed)
  = [ToastError "Failed to cancel: Failed to fetch"].
Proof.
  apply (cancel_network_failure
           (Demo.host 0 0 (fun _ => Failed (TypeError "Failed to fetch")))
           (fun _ => true) None Demo.listed (TypeError "Failed to fetch"));
    reflexivity.
Defined.

(* ===================================================================== *)
(** * toLocalISO: shape, failure, calendar *)
(* ===================================================================== *)

Lemma length_iso_string (t : Z) :
  (19 <= String.length (JSDate.iso_string t))%nat.
Proof.
  unfold JSDate.iso_string. rewrite !length_append, !length_digits.
  cbn [String.length]. lia.
Qed.

(** What [toLocalISO] does on a date object, by its time value. *)
Lemma toLocalISO_date (h : Host) (d : Date) :
  toLocalISO h (Some d)
  = match time_value d with
    | None => Throw (RangeError "Invalid time value")
    | Some t =>
        if Z.abs (LocalTime h t) <=? JSDate.maxTime
        then Normal (JSString.slice (JSDate.iso_string (LocalTime h t)) 0 19)
        else Throw (RangeError "Invalid time value")
    end.
Proof.
  destruct d as [[t|]]; [|reflexivity].
  cbn [time_value].
  destruct (Z.leb_spec (Z.abs (LocalTime h t)) JSDate.maxTime) as [Hle|Hgt].
  - now apply toLocalISO_valid.
  - unfold toLocalISO, getTimezoneOffset, JSDate.mul, JSDate.sub, JSDate.of_number,
      JSDate.TimeClip, toISOString.
    cbn [time_value].
    replace (t - timezoneOffset h t * 60000) with (LocalTime h t)
      by (unfold LocalTime, JSDate.msPerMinute; lia).
    destruct (Z.leb_spec (Z.abs (LocalTime h t)) JSDate.maxTime); [lia|].
    reflexivity.
Qed.

(** X14.  Whenever [toLocalISO] returns, it returns the empty string for
    [null] and a string of exactly 19 code units for a date, whatever the
    year: the text that [book] sends never carries milliseconds or a zone
    mark. *)
Theorem toLocalISO_length (h : Host) (dt : option Date) (s : string) :
  toLocalISO h dt = Normal s ->
  match dt with
  | None => s = EmptyString
  | Some _ => String.length s = 19%nat
  end.
Proof.
  destruct dt as [d|]; [|intros H; now injection H as <-].
  rewrite toLocalISO_date.
  destruct (time_value d) as [t|]; [|discriminate].
  destruct (Z.abs (LocalTime h t) <=? JSDate.maxTime); [|discriminate].
  intros H. injection H as <-.
  rewrite (slice_head _ 19), length_substring_head.
  pose proof (length_iso_string (LocalTime h t)). lia.
Qed.

Lemma toLocalISO_length_witness :
  String.length "+010000-01-01T14:00" = 19%nat.
Proof.
  apply (toLocalISO_length (Demo.host 0 0 Demo.accepts)
           (Demo.at_ (Demo.new_year_10000 + 50400000)) "+010000-01-01T14:00").
  reflexivity.
Defined.

(** X15.  [toLocalISO] throws exactly on a date that is invalid or whose
    local time lies outside the range of time values (more than 8.64e15
    ms from the epoch); the error is then the [RangeError] of
    [toISOString].  It never throws on [null]. *)
Theorem toLocalISO_throws_iff (h : Host) (dt : option Date) (e : Exn) :
  toLocalISO h dt = Throw e <->
  e = RangeError "Invalid time value"
  /\ exists d, dt = Some d
     /\ (time_value d = None
         \/ exists t, time_value d = Some t
                      /\ JSDate.maxTime < Z.abs (LocalTime h t)).
Proof.
  destruct dt as [d|].
  - rewrite toLocalISO_date. split.
    + destruct (time_value d) as [t|] eqn:Ht.
      * destruct (Z.leb_spec (Z.abs (LocalTime h t)) JSDate.maxTime) as [Hle|Hgt];
          [discriminate|].
        intros H. injection H as <-. split; [reflexivity|].
        exists d. split; [reflexivity|]. right. exists t. now split.
      * intros H. injection H as <-. split; [reflexivity|].
        exists d. split; [reflexivity|]. now left.
    + intros (-> & d' & Hd & Hc). injection Hd as <-.
      destruct Hc as [-> | (t & -> & Hgt)]; [reflexivity|].
      destruct (Z.leb_spec (Z.abs (LocalTime h t)) JSDate.maxTime); [lia|].
      reflexivity.
  - split; [discriminate|]. intros (_ & d & Hd & _). discriminate.
Qed.

Lemma toLocalISO_throws_iff_witness :
  toLocalISO (Demo.host (-60) 0 Demo.accepts) (Demo.at_ JSDate.maxTime)
  = Throw (RangeError "Invalid time value").
Proof.
  apply (proj2 (toLocalISO_throws_iff (Demo.host (-60) 0 Demo.accepts)
                  (Demo.at_ JSDate.maxTime) (RangeError "Invalid time value"))).
  split; [reflexivity|].
  exists (mkDate (Some JSDate.maxTime)). split; [reflexivity|].
  right. exists JSDate.maxTime. split; reflexivity.
Defined.

Lemma DayWithinYear_range (t : Z) :
  0 <= JSDate.DayWithinYear t < JSDate.DaysInYear (JSDate.YearFromTime t).
Proof.
  unfold JSDate.DayWithinYear, JSDate.YearFromTime.
  pose proof (YearFromDay_spec (JSDate.Day t)) as [H1 H2].
  rewrite <- DaysInYear_spec. lia.
Qed.

Lemma DaysInYear_cases (y : Z) :
  JSDate.DaysInYear y = 365 \/ JSDate.DaysInYear y = 366.
Proof.
  unfold JSDate.DaysInYear.
  destruct (y mod 4 =? 0); destruct (y mod 100 =? 0); destruct (y mod 400 =? 0);
    cbn [negb]; auto.
Qed.

Ltac month_cases :=
  repeat match goal with
         | |- context [?a <? ?b] => destruct (Z.ltb_spec a b)
         end.

(** Month and day of the month are those of a calendar: the day never
    exceeds the length of its month. *)
Lemma month_date_valid (t : Z) :
  0 <= JSDate.MonthFromTime t <= 11
  /\ 1 <= JSDate.DateFromTime t
          <= DaysInMonth (JSDate.MonthFromTime t) (JSDate.InLeapYear t)
  /\ JSDate.DayWithinYear t
     = day_of_year (JSDate.MonthFromTime t) (JSDate.DateFromTime t)
                   (JSDate.InLeapYear t).
Proof.
  pose proof (DayWithinYear_range t) as Hd.
  assert (Hl : JSDate.DaysInYear (JSDate.YearFromTime t) = 365 + JSDate.InLeapYear t).
  { unfold JSDate.InLeapYear.
    destruct (DaysInYear_cases (JSDate.YearFromTime t)) as [-> | ->]; reflexivity. }
  rewrite Hl in Hd.
  assert (Hleap : JSDate.InLeapYear t = 0 \/ JSDate.InLeapYear t = 1).
  { unfold JSDate.InLeapYear. destruct (_ =? _); auto. }
  unfold JSDate.DateFromTime, JSDate.MonthFromTime.
  set (d := JSDate.DayWithinYear t) in *.
  set (l := JSDate.InLeapYear t) in *.
  clearbody d l. clear Hl.
  month_cases; cbn [DaysInMonth day_of_year]; lia.
Qed.

Lemma time_fields_valid (t : Z) :
  0 <= JSDate.HourFromTime t <= 23
  /\ 0 <= JSDate.MinFromTime t <= 59
  /\ 0 <= JSDate.SecFromTime t <= 59.
Proof.
  unfold JSDate.HourFromTime, JSDate.MinFromTime, JSDate.SecFromTime.
  pose proof (Z.mod_pos_bound (t / JSDate.msPerHour) 24 ltac:(lia)).
  pose proof (Z.mod_pos_bound (t / JSDate.msPerMinute) 60 ltac:(lia)).
  pose proof (Z.mod_pos_bound (t / JSDate.msPerSecond) 60 ltac:(lia)).
  lia.
Qed.

(** X16.  For a date with a local year from 0 to 9999 the text of
    [toLocalISO] is a reading of the calendar in the zone of the host: it
    is [YYYY-MM-DDTHH:MM:SS] written from the local year, month, day,
    hour, minute and second of the date, where the month is 1 to 12, the
    day of the month is from 1 to the length of that month in that year
    (29 days for February in leap years only), the hour is 0 to 23, the
    minute and the second 0 to 59. *)
Theorem wall_clock_fields_valid (h : Host) (t : Z) :
  0 <= getFullYear h t <= 9999 ->
  toLocalISO h (Some (mkDate (Some t)))
  = Normal (naive_local (getFullYear h t) (getMonth h t + 1) (getDate h t)
                        (getHours h t) (getMinutes h t) (getSeconds h t))
  /\ 1 <= getMonth h t + 1 <= 12
  /\ 1 <= getDate h t
       <= DaysInMonth (getMonth h t)
                      (if JSDate.DaysInYear (getFullYear h t) =? 366 then 1 else 0)
  /\ 0 <= getHours h t <= 23
  /\ 0 <= getMinutes h t <= 59
  /\ 0 <= getSeconds h t <= 59.
Proof.
  intros Hy.
  split; [now apply toLocalISO_wall_clock|].
  unfold getMonth, getDate, getHours, getMinutes, getSeconds, getFullYear.
  destruct (month_date_valid (LocalTime h t)) as (Hm & Hd & _).
  destruct (time_fields_valid (LocalTime h t)) as (Hh & Hmi & Hs).
  unfold JSDate.InLeapYear in Hd. repeat split; lia.
Qed.

Lemma wall_clock_fields_valid_witness :
  toLocalISO (Demo.host 480 0 Demo.accepts) (Some (mkDate (Some 1709279999000)))
  = Normal "2024-02-29T23:59:59"
  /\ getDate (Demo.host 480 0 Demo.accepts) 1709279999000
     <= DaysInMonth 1 1.
Proof.
  destruct (wall_clock_fields_valid (Demo.host 480 0 Demo.accepts) 1709279999000)
    as (Ht & _ & Hd & _); [split; discriminate|].
  split; [rewrite Ht; vm_compute; reflexivity | exact (proj2 Hd)].
Defined.

Lemma date_at_most_31 (t : Z) : 1 <= JSDate.DateFromTime t <= 31.
Proof.
  destruct (month_date_valid t) as (_ & Hd & _).
  assert (Hl : JSDate.InLeapYear t <= 1)
    by (unfold JSDate.InLeapYear; destruct (_ =? _); lia).
  assert (Hm : DaysInMonth (JSDate.MonthFromTime t) (JSDate.InLeapYear t) <= 31).
  { unfold DaysInMonth.
    repeat match goal with
           | |- context [match ?x with _ => _ end] => destruct x
           end; lia. }
  lia.
Qed.

(** The calendar reading of a time value gives back its seconds. *)
Lemma seconds_of_fields_spec (t : Z) :
  seconds_of_fields (JSDate.YearFromTime t) (JSDate.MonthFromTime t)
                    (JSDate.DateFromTime t) (JSDate.HourFromTime t)
                    (JSDate.MinFromTime t) (JSDate.SecFromTime t)
  = t / 1000.
Proof.
  unfold seconds_of_fields.
  destruct (month_date_valid t) as (_ & _ & Hd).
  unfold JSDate.InLeapYear in Hd. rewrite <- Hd.
  unfold JSDate.DayWithinYear.
  replace (JSDate.DayFromYear (JSDate.YearFromTime t)
           + (JSDate.Day t - JSDate.DayFromYear (JSDate.YearFromTime t)))
    with (JSDate.Day t) by lia.
  unfold JSDate.Day, JSDate.HourFromTime, JSDate.MinFromTime, JSDate.SecFromTime,
    JSDate.msPerDay, JSDate.msPerHour, JSDate.msPerMinute, JSDate.msPerSecond.
  Z.div_mod_to_equations. lia.
Qed.

Lemma string_app_inj (a a' b b' : string) :
  String.length a = String.length a' ->
  a ++ b = a' ++ b' -> a = a' /\ b = b'.
Proof.
  revert a'. induction a as [|c a IH]; intros [|c' a'] Hl H;
    try discriminate; cbn [append] in *.
  - now split.
  - injection H as -> H. injection Hl as Hl.
    destruct (IH a' Hl H) as [-> ->]. now split.
Qed.

Lemma digit_inj (n n' : Z) : JSDate.digit n = JSDate.digit n' -> n mod 10 = n' mod 10.
Proof.
  unfold JSDate.digit. intros H.
  pose proof (Z.mod_pos_bound n 10 ltac:(lia)).
  pose proof (Z.mod_pos_bound n' 10 ltac:(lia)).
  apply (f_equal nat_of_ascii) in H.
  rewrite !nat_ascii_embedding in H by lia. lia.
Qed.

(** Numbers below [10^w] with the same [w] digits are equal. *)
Lemma digits_inj (w : nat) (n n' : Z) :
  0 <= n < 10 ^ Z.of_nat w -> 0 <= n' < 10 ^ Z.of_nat w ->
  JSDate.digits w n = JSDate.digits w n' -> n = n'.
Proof.
  revert n n'. induction w as [|w IH]; intros n n' Hn Hn' H.
  - change (10 ^ Z.of_nat 0) with 1 in *. lia.
  - rewrite Nat2Z.inj_succ, Z.pow_succ_r in Hn, Hn' by lia.
    cbn [JSDate.digits] in H.
    apply string_app_inj in H; [|now rewrite !length_digits].
    destruct H as [Hhigh Hlow]. injection Hlow as Hlow.
    apply digit_inj in Hlow.
    assert (Hq : n / 10 = n' / 10).
    { apply IH; [| | exact Hhigh]; Z.div_mod_to_equations; lia. }
    Z.div_mod_to_equations; lia.
Qed.

Lemma naive_local_inj (y mo d h mi s y' mo' d' h' mi' s' : Z) :
  naive_local y mo d h mi s = naive_local y' mo' d' h' mi' s' ->
  JSDate.digits 4 y = JSDate.digits 4 y'
  /\ JSDate.digits 2 mo = JSDate.digits 2 mo'
  /\ JSDate.digits 2 d = JSDate.digits 2 d'
  /\ JSDate.digits 2 h = JSDate.digits 2 h'
  /\ JSDate.digits 2 mi = JSDate.digits 2 mi'
  /\ JSDate.digits 2 s = JSDate.digits 2 s'.
Proof.
  unfold naive_local. intros H.
  repeat (apply string_app_inj in H; [|now rewrite !length_digits];
          destruct H as [? H]; try injection H as H).
  cbn [JSDate.digits append] in *. repeat split; congruence.
Qed.

(** X17.  Within the years 0 to 9999 [toLocalISO] loses nothing but the
    milliseconds: two dates that serialize to the same text have local
    times in the same second. *)
Theorem toLocalISO_injective (h : Host) (t1 t2 : Z) :
  0 <= getFullYear h t1 <= 9999 ->
  0 <= getFullYear h t2 <= 9999 ->
  toLocalISO h (Some (mkDate (Some t1))) = toLocalISO h (Some (mkDate (Some t2))) ->
  LocalTime h t1 / 1000 = LocalTime h t2 / 1000.
Proof.
  intros Hy1 Hy2 H.
  rewrite !toLocalISO_wall_clock in H by assumption.
  assert (H' : wall_clock h t1 = wall_clock h t2) by congruence.
  clear H. unfold wall_clock in H'.
  apply naive_local_inj in H'. destruct H' as (Ey & Emo & Ed & Eh & Emi & Es).
  unfold getFullYear, getMonth, getDate, getHours, getMinutes, getSeconds in *.
  destruct (month_date_valid (LocalTime h t1)) as (Hmo1 & _ & _).
  destruct (month_date_valid (LocalTime h t2)) as (Hmo2 & _ & _).
  pose proof (date_at_most_31 (LocalTime h t1)) as Hd1.
  pose proof (date_at_most_31 (LocalTime h t2)) as Hd2.
  destruct (time_fields_valid (LocalTime h t1)) as (Hh1 & Hmi1 & Hs1).
  destruct (time_fields_valid (LocalTime h t2)) as (Hh2 & Hmi2 & Hs2).
  apply (digits_inj 4) in Ey; [|change (10 ^ Z.of_nat 4) with 10000; lia ..].
  apply (digits_inj 2) in Emo; [|change (10 ^ Z.of_nat 2) with 100; lia ..].
  apply (digits_inj 2) in Ed; [|change (10 ^ Z.of_nat 2) with 100; lia ..].
  apply (digits_inj 2) in Eh; [|change (10 ^ Z.of_nat 2) with 100; lia ..].
  apply (digits_inj 2) in Emi; [|change (10 ^ Z.of_nat 2) with 100; lia ..].
  apply (digits_inj 2) in Es; [|change (10 ^ Z.of_nat 2) with 100; lia ..].
  rewrite <- (seconds_of_fields_spec (LocalTime h t1)),
          <- (seconds_of_fields_spec (LocalTime h t2)).
  assert (Emo' : JSDate.MonthFromTime (LocalTime h t1)
                 = JSDate.MonthFromTime (LocalTime h t2)) by lia.
  now rewrite Ey, Emo', Ed, Eh, Emi, Es.
Qed.

Lemma toLocalISO_injective_witness :
  LocalTime (Demo.host 480 0 Demo.accepts) 1704146400000 / 1000
  = LocalTime (Demo.host 480 0 Demo.accepts) 1704146400999 / 1000.
Proof.
  apply (toLocalISO_injective (Demo.host 480 0 Demo.accepts)
                              1704146400000 1704146400999);
    try reflexivity; split; discriminate.
Defined.

(* ===================================================================== *)
(** * The list: displayed times, badge, items *)
(* ===================================================================== *)

Lemma all_append (p : ascii -> bool) (a b : string) :
  StringToNumber.all p (a ++ b)
  = (StringToNumber.all p a && StringToNumber.all p b)%bool.
Proof.
  induction a as [|c a IH]; cbn [append StringToNumber.all]; [reflexivity|].
  now rewrite IH, andb_assoc.
Qed.

Lemma digits_not_T (w : nat) (n : Z) :
  StringToNumber.all not_T (JSDate.digits w n) = true.
Proof.
  revert n. induction w as [|w IH]; intros n; [reflexivity|].
  cbn [JSDate.digits]. rewrite all_append, IH.
  cbn [StringToNumber.all andb]. rewrite andb_true_r.
  unfold not_T. apply negb_true_iff. apply Ascii.eqb_neq. intros E.
  pose proof (digit_is_digit n) as Hd. rewrite E in Hd. discriminate Hd.
Qed.

(** [replace('T', ' ')] reaches the first [T], after any text without
    one. *)
Lemma replace_first_T (a b : string) :
  StringToNumber.all not_T a = true ->
  JSString.replace "T" " " (a ++ String "T" b) = a ++ String " " b.
Proof.
  induction a as [|c a IH]; intros Ha.
  - cbn [append JSString.replace prefix].
    destruct (ascii_dec "T" "T") as [_|N]; [|now contradiction N].
    destruct b; reflexivity.
  - cbn [StringToNumber.all] in Ha. apply andb_true_iff in Ha.
    destruct Ha as [Hc Ha].
    cbn [append JSString.replace prefix].
    destruct (ascii_dec "T" c) as [E|_].
    + subst c. discriminate Hc.
    + now rewrite IH.
Qed.

Lemma displayLocal_naive_local (y mo d h mi s : Z) :
  displayLocal (Some (naive_local y mo d h mi s)) = minute_text y mo d h mi.
Proof.
  assert (Hne : JSString.truthy (naive_local y mo d h mi s) = true).
  { apply truthy_true_iff. intros E.
    apply (f_equal String.length) in E. unfold naive_local in E.
    rewrite !length_append, !length_digits in E. discriminate E. }
  unfold displayLocal. rewrite Hne. cbn [negb].
  set (date := JSDate.digits 4 y ++ "-" ++ JSDate.digits 2 mo ++ "-"
               ++ JSDate.digits 2 d).
  assert (E1 : naive_local y mo d h mi s
               = date ++ String "T" (JSDate.digits 2 h ++ ":" ++ JSDate.digits 2 mi
                                     ++ ":" ++ JSDate.digits 2 s)).
  { unfold naive_local, date. rewrite !string_app_assoc. reflexivity. }
  rewrite E1, replace_first_T.
  - assert (E2 : date ++ String " " (JSDate.digits 2 h ++ ":" ++ JSDate.digits 2 mi
                                     ++ ":" ++ JSDate.digits 2 s)
                 = minute_text y mo d h mi ++ (":" ++ JSDate.digits 2 s)).
    { unfold minute_text, date. rewrite !string_app_assoc. reflexivity. }
    rewrite E2. apply slice_append_head.
    unfold minute_text. rewrite !length_append, !length_digits. reflexivity.
  - unfold date. rewrite !all_append, !digits_not_T. reflexivity.
Qed.

(** X18.  What [book] sends is what the list shows: for a date with a
    local year from 0 to 9999, [displayLocal] applied to the text of
    [toLocalISO] is the same wall-clock reading cut at the minute,
    [YYYY-MM-DD HH:MM], in the zone of the host. *)
Theorem displayLocal_of_toLocalISO (h : Host) (t : Z) :
  0 <= getFullYear h t <= 9999 ->
  exists s,
    toLocalISO h (Some (mkDate (Some t))) = Normal s
    /\ displayLocal (Some s) = wall_clock_minute h t.
Proof.
  intros Hy. exists (wall_clock h t). split.
  - now apply toLocalISO_wall_clock.
  - unfold wall_clock, wall_clock_minute. apply displayLocal_naive_local.
Qed.

Lemma displayLocal_of_toLocalISO_witness :
  exists s,
    toLocalISO (Demo.host 480 0 Demo.accepts) (Some (mkDate (Some 1704146400000)))
    = Normal s
    /\ displayLocal (Some s) = "2024-01-01 14:00".
Proof.
  apply (displayLocal_of_toLocalISO (Demo.host 480 0 Demo.accepts) 1704146400000).
  split; discriminate.
Defined.

(** X19.  [displayLocal] never gives an empty text nor one longer than 16
    code units, whatever it is given. *)
Theorem displayLocal_length (dt : option string) :
  (1 <= String.length (displayLocal dt) <= 16)%nat.
Proof.
  destruct dt as [s|]; [|cbn; lia].
  unfold displayLocal. destruct s as [|c s]; [cbn; lia|].
  cbn [JSString.truthy negb].
  rewrite (slice_head _ 16), length_substring_head, length_replace_T.
  cbn [String.length]. lia.
Qed.

Lemma displayLocal_value_string (s : string) :
  displayLocal_value (Some (JStr s)) = Normal (displayLocal (Some s)).
Proof.
  unfold displayLocal_value, displayLocal. cbn [truthy_value].
  destruct (JSString.truthy s); reflexivity.
Qed.

(** The payload object, as an item of the list. *)
Lemma payload_listed (h : Host) (c v : string) (m : JSNumber) (ts te : Z) :
  item_view (JObj [ ("customerName", JStr c); ("vehicleReg", JStr v);
                    ("mechanicId", JNum m); ("startTime", JStr (wall_clock h ts));
                    ("endTime", JStr (wall_clock h te)) ])
  = Normal (mkItemView None (wall_clock_minute h ts) (wall_clock_minute h te)
                       (JStr "SCHEDULED")).
Proof.
  generalize (displayLocal_naive_local (getFullYear h ts) (getMonth h ts + 1)
                (getDate h ts) (getHours h ts) (getMinutes h ts) (getSeconds h ts)).
  generalize (displayLocal_naive_local (getFullYear h te) (getMonth h te + 1)
                (getDate h te) (getHours h te) (getMinutes h te) (getSeconds h te)).
  fold (wall_clock h ts) (wall_clock h te)
       (wall_clock_minute h ts) (wall_clock_minute h te).
  generalize (wall_clock h ts) (wall_clock h te). intros st en Hen Hst.
  fold (payload c v m st en).
  unfold item_view, status_badge.
  change (get_field (payload c v m st en) f_id) with (@Normal (option JSON) None).
  change (get_field (payload c v m st en) f_startTime) with (Normal (Some (JStr st))).
  change (get_field (payload c v m st en) f_endTime) with (Normal (Some (JStr en))).
  change (get_field (payload c v m st en) f_status) with (@Normal (option JSON) None).
  cbv beta iota.
  rewrite (displayLocal_value_string st), Hst. cbv beta iota.
  rewrite (displayLocal_value_string en), Hen. reflexivity.
Qed.

(** X20.  What [book] posts is listed as it was picked.  For a draft
    that passes the three validations, with start and end in the local
    years 0 to 9999, the body of the POST is the JSON text of an object
    which, taken as an appointment of the list, is shown with the
    wall-clock readings of start and end cut at the minute and with the
    badge [SCHEDULED], since it carries no status; it has no [id] of its
    own. *)
Theorem item_view_of_payload (h : Host) (w : World) (ts te : Z) :
  passes_validation h w = true ->
  start w = Some (mkDate (Some ts)) ->
  end_ w = Some (mkDate (Some te)) ->
  0 <= getFullYear h ts <= 9999 ->
  0 <= getFullYear h te <= 9999 ->
  exists p rest,
    requests (exec (book h) w)
    = (requests w
       ++ mkRequest POST API [("Content-Type", "application/json")]
            (Some (JSON_stringify h p)) :: rest)%list
    /\ p = JObj [ ("customerName", JStr (customer w));
                  ("vehicleReg", JStr (vehicle w));
                  ("mechanicId", JNum (Number h (mechanic w)));
                  ("startTime", JStr (wall_clock h ts));
                  ("endTime", JStr (wall_clock h te)) ]
    /\ item_view p
       = Normal (mkItemView None (wall_clock_minute h ts) (wall_clock_minute h te)
                            (JStr "SCHEDULED")).
Proof.
  intros Hv Hs He Hys Hye.
  assert (Hst : toLocalISO h (start w) = Normal (wall_clock h ts))
    by (rewrite Hs; apply toLocalISO_wall_clock; exact Hys).
  assert (Hen : toLocalISO h (end_ w) = Normal (wall_clock h te))
    by (rewrite He; apply toLocalISO_wall_clock; exact Hye).
  destruct (submitted_requests h w
              (payload (customer w) (vehicle w) (Number h (mechanic w))
                       (wall_clock h ts) (wall_clock h te)))
    as (rest & Hr & _).
  eexists. exists rest. split; [|split; [reflexivity|]].
  - unfold exec. rewrite (book_run h w _ _ Hv Hst Hen). cbn [snd].
    rewrite Hr, post_request. reflexivity.
  - apply payload_listed.
Qed.

Lemma item_view_of_payload_witness :
  exists p rest,
    requests (exec (book (Demo.host 480 Demo.new_year_2024 Demo.accepts))
                   (Demo.form "7" (Demo.at_ 1704146400000)
                              (Demo.at_ 1704150000000)))
    = mkRequest POST API [("Content-Type", "application/json")]
        (Some (JSON_stringify (Demo.host 480 Demo.new_year_2024 Demo.accepts) p))
      :: rest
    /\ item_view p
       = Normal (mkItemView None "2024-01-01 14:00" "2024-01-01 15:00"
                            (JStr "SCHEDULED")).
Proof.
  destruct (item_view_of_payload
              (Demo.host 480 Demo.new_year_2024 Demo.accepts)
              (Demo.form "7" (Demo.at_ 1704146400000) (Demo.at_ 1704150000000))
              1704146400000 1704150000000)
    as (p & rest & Hr & _ & Hi); try reflexivity; try (split; discriminate).
  exists p, rest. split; [exact Hr|]. rewrite Hi. vm_compute. reflexivity.
Defined.

(** Each view of a list is the view of the item at its place. *)
Lemma item_views_pointwise (items : list JSON) (vs : list ItemView) :
  item_views items = Normal vs ->
  Forall2 (fun a v => item_view a = Normal v) items vs.
Proof.
  revert vs. induction items as [|a items IH]; intros vs H; cbn [item_views] in H.
  - injection H as <-. constructor.
  - destruct (item_view a) as [v|e] eqn:Ha; [|discriminate].
    destruct (item_views items) as [vs'|e] eqn:Hr; [|discriminate].
    injection H as <-. constructor; [exact Ha | now apply IH].
Qed.

(** X21.  The list is drawn from an array only, in the order of the
    array, one item per appointment and none dropped or sorted: when
    [list_view] returns, the stored value is an array and the views are,
    place by place, the views of its items. *)
Theorem list_view_in_order (v : JSON) (vs : list ItemView) :
  list_view v = Normal vs ->
  exists items,
    v = JArr items
    /\ List.length vs = List.length items
    /\ Forall2 (fun a view => item_view a = Normal view) items vs.
Proof.
  destruct v as [| | | |items|]; try discriminate.
  cbn [list_view]. intros H. exists items. split; [reflexivity|].
  pose proof (item_views_pointwise items vs H) as HF.
  split; [symmetry; apply (Forall2_length HF) | exact HF].
Qed.

Lemma list_view_in_order_witness :
  exists items,
    appointments Demo.listed = JArr items /\ 1%nat = List.length items
    /\ Forall2 (fun a view => item_view a = Normal view) items
         [mkItemView (Some (JNum (S754_finite false 1 0)))
                     "Invalid Date" "Invalid Date" (JStr "SCHEDULED")].
Proof.
  apply (list_view_in_order (appointments Demo.listed)
           [mkItemView (Some (JNum (S754_finite false 1 0)))
                       "Invalid Date" "Invalid Date" (JStr "SCHEDULED")]).
  reflexivity.
Defined.

(** X22.  A body that parses to something that is not an array breaks
    the list: [load] stores it whatever the status, and mapping over the
    stored value then throws a [TypeError]. *)
Theorem load_non_array_breaks_list (h : Host) (w : World) (st : Z) (txt : string)
    (v : JSON) :
  network h get_appointments = Responded st txt ->
  JSON_parse h txt = Some v ->
  (forall items, v <> JArr items) ->
  exists msg, list_view (appointments (exec (load h) w)) = Throw (TypeError msg).
Proof.
  intros Hn Hp Hv. unfold exec. rewrite load_run. cbn [snd].
  unfold loaded. rewrite Hn, Hp. cbn [appointments with_appointments].
  destruct v as [| | | |items|]; try (eexists; reflexivity).
  now contradiction (Hv items).
Qed.

Lemma load_non_array_breaks_list_witness :
  exists msg,
    list_view (appointments
                 (exec (load (Demo.host 0 0 (fun _ => Responded 500 "{}")))
                       Demo.listed))
    = Throw (TypeError msg).
Proof.
  apply (load_non_array_breaks_list (Demo.host 0 0 (fun _ => Responded 500 "{}"))
           Demo.listed 500 "{}" (JObj []));
    try reflexivity.
  intros items. discriminate.
Defined.

(** X23.  The badge of an appointment is never blank: whenever the
    status expression returns, its value is truthy; it is the status of
    the appointment when that is truthy and [SCHEDULED] in every other
    case (no status, [null], empty string, zero, [false]).  It throws
    only on a [null] item. *)
Theorem status_badge_default (a : JSON) :
  (forall b, status_badge a = Normal b ->
     truthy_value (Some b) = true
     /\ (get_field a f_status = Normal (Some b)
         \/ (b = JStr "SCHEDULED"
             /\ exists s, get_field a f_status = Normal s
                          /\ truthy_value s = false)))
  /\ ((exists e, status_badge a = Throw e) <-> a = JNull).
Proof.
  unfold status_badge. split.
  - intros b. destruct (get_field a f_status) as [s|e]; [|discriminate].
    destruct s as [s|].
    + destruct (truthy_value (Some s)) eqn:Ht; intros H; injection H as <-.
      * split; [exact Ht | now left].
      * split; [reflexivity|]. right. split; [reflexivity|].
        exists (Some s). now split.
    + intros H. injection H as <-. split; [reflexivity|].
      right. split; [reflexivity|]. exists None. now split.
  - destruct a; cbn [get_field]; split; try discriminate;
      try (intros [e H]; discriminate); try reflexivity.
    intros _. eexists. reflexivity.
Qed.

(* ===================================================================== *)
(** * The decimal text of a status code *)
(* ===================================================================== *)

Lemma decimal_value_append (acc : Z) (a b : string) :
  Demo.decimal_value acc (a ++ b) = Demo.decimal_value (Demo.decimal_value acc a) b.
Proof.
  revert acc. induction a as [|c a IH]; intros acc; cbn [append Demo.decimal_value];
    [reflexivity | apply IH].
Qed.

Lemma decimal_reads_back (fuel : nat) (n : Z) :
  0 <= n < 10 ^ Z.of_nat fuel ->
  Demo.decimal_value 0 (decimal fuel n) = n.
Proof.
  revert n. induction fuel as [|fuel IH]; intros n Hn.
  - change (10 ^ Z.of_nat 0) with 1 in Hn. cbn. lia.
  - rewrite Nat2Z.inj_succ, Z.pow_succ_r in Hn by lia.
    cbn [decimal]. rewrite decimal_value_append.
    cbn [Demo.decimal_value]. unfold JSDate.digit.
    pose proof (Z.mod_pos_bound n 10 ltac:(lia)) as Hm.
    rewrite nat_ascii_embedding by lia.
    destruct (Z.ltb_spec n 10) as [Hlt|Hge].
    + cbn [Demo.decimal_value]. rewrite Z.mod_small by lia. lia.
    + rewrite IH by (Z.div_mod_to_equations; lia).
      Z.div_mod_to_equations; lia.
Qed.

(** The text written for a status code reads back as that code. *)
Lemma integer_toString_reads_back (n : Z) :
  0 <= n -> Demo.decimal_value 0 (integer_toString n) = n.
Proof.
  intros Hn. unfold integer_toString.
  destruct (Z.ltb_spec n 0) as [?|_]; [lia|].
  apply decimal_reads_back. split; [exact Hn|].
  destruct (Z.eq_dec n 0) as [->|Hne]; [reflexivity|].
  rewrite Nat2Z.inj_succ, Z2Nat.id by apply Z.log2_nonneg.
  pose proof (Z.log2_spec n ltac:(lia)) as [_ Hlt].
  pose proof (Z.log2_nonneg n).
  assert (2 ^ Z.succ (Z.log2 n) <= 10 ^ Z.succ (Z.log2 n))
    by (apply Z.pow_le_mono_l; lia).
  lia.
Qed.

Example integer_toString_examples :
  map integer_toString [0; 7; 204; 404; 500; -35]
  = ["0"; "7"; "204"; "404"; "500"; "-35"].
Proof. reflexivity. Qed.
